(** * Outline extraction and persona ranking: a shallow embedding

    The development follows the three Python modules of the repository:
    the two outline extractors ([ext2.py], [ext3.py]) and the persona
    analyst ([src/persona_analyst.py]).

    Conventions of the embedding.
    - A Python [str] is a [string]; a character is one of the code points
      0..255 and the character classes below are the ones Python's [str]
      methods and [re] module use on that range.
    - A Python [int] is a [Z]; a (finite) Python [float] is the rational
      [Q] it denotes and a decimal literal ([0.9], [0.1], [0.05]) is the
      decimal fraction it spells, so arithmetic and comparisons are exact.
    - The objects handed out by the PDF library are records; a key read
      with [d.get(k, default)] is an [option] field.
    - A [dict] whose iteration order is observed is an association list in
      insertion order; a [set] that is only tested for membership is a
      [gset]. *)

From Stdlib Require Import ZArith QArith Qround Qabs List Ascii String Bool Lia.
From Stdlib Require Import Sorted Permutation.
From stdpp Require Import gmap strings list pretty.
Import ListNotations.

Local Open Scope string_scope.
Local Open Scope Z_scope.

(** ** Characters and strings, as Python sees them *)

Module PyStr.

Definition code (c : ascii) : nat := nat_of_ascii c.

Definition in_range (lo hi : nat) (c : ascii) : bool :=
  (Nat.leb lo (code c) && Nat.leb (code c) hi)%bool.

(** [str.isspace] on one character, which is also what [\s] matches. *)
Definition is_space (c : ascii) : bool :=
  (in_range 9 13 c || in_range 28 32 c
   || Nat.eqb (code c) 133 || Nat.eqb (code c) 160)%bool.

(** [\d]: the decimal digits. *)
Definition is_digit (c : ascii) : bool := in_range 48 57 c.

Definition is_upper_char (c : ascii) : bool :=
  (in_range 65 90 c || in_range 192 214 c || in_range 216 222 c)%bool.

Definition is_lower_char (c : ascii) : bool :=
  (in_range 97 122 c || in_range 223 246 c || in_range 248 255 c
   || Nat.eqb (code c) 170 || Nat.eqb (code c) 181
   || Nat.eqb (code c) 186)%bool.

Definition lower_char (c : ascii) : ascii :=
  if is_upper_char c then ascii_of_nat (code c + 32) else c.

(** [s.lower()] *)
Fixpoint lower (s : string) : string :=
  match s with
  | EmptyString => EmptyString
  | String c s' => String (lower_char c) (lower s')
  end.

Fixpoint forallb_str (p : ascii -> bool) (s : string) : bool :=
  match s with
  | EmptyString => true
  | String c s' => (p c && forallb_str p s')%bool
  end.

Fixpoint existsb_str (p : ascii -> bool) (s : string) : bool :=
  match s with
  | EmptyString => false
  | String c s' => (p c || existsb_str p s')%bool
  end.

(** [s.isupper()]: no lowercase character and at least one uppercase one. *)
Definition isupper (s : string) : bool :=
  (forallb_str (fun c => negb (is_lower_char c)) s
   && existsb_str is_upper_char s)%bool.

(** [len(s)] *)
Definition len (s : string) : Z := Z.of_nat (String.length s).

(** [not s] *)
Definition is_empty (s : string) : bool :=
  match s with EmptyString => true | _ => false end.

Fixpoint lstrip (s : string) : string :=
  match s with
  | EmptyString => EmptyString
  | String c s' => if is_space c then lstrip s' else s
  end.

Fixpoint rstrip (s : string) : string :=
  match s with
  | EmptyString => EmptyString
  | String c s' =>
      let r := rstrip s' in
      if (is_empty r && is_space c)%bool then EmptyString else String c r
  end.

(** [s.strip()] *)
Definition strip (s : string) : string := rstrip (lstrip s).

(** [s.split()]: the maximal runs of non-space characters.  [cur] is the
    run being read, in reverse. *)
Fixpoint split_aux (cur : list ascii) (s : string) : list string :=
  let flush := match cur with
               | [] => []
               | _ => [string_of_list_ascii (List.rev cur)]
               end in
  match s with
  | EmptyString => flush
  | String c s' =>
      if is_space c then flush ++ split_aux [] s'
      else split_aux (c :: cur) s'
  end.

Definition split (s : string) : list string := split_aux [] s.

(** [s.endswith(t)] *)
Definition endswith (s t : string) : bool :=
  let n := String.length s in
  let m := String.length t in
  (Nat.leb m n && String.eqb (String.substring (n - m) m s) t)%bool.

(** [t in s] *)
Fixpoint contains (t s : string) : bool :=
  (String.prefix t s ||
   match s with
   | EmptyString => false
   | String _ s' => contains t s'
   end)%bool.

(** [sep.join(l)] *)
Fixpoint join (sep : string) (l : list string) : string :=
  match l with
  | [] => EmptyString
  | [x] => x
  | x :: l' => x ++ sep ++ join sep l'
  end.

End PyStr.

(** ** Regular expressions

    The patterns of the source use character classes, concatenation,
    alternation and repetition only, so whether [re] finds a match is a
    question about a regular language.  It is decided here with Brzozowski
    derivatives. *)

Module Re.

Inductive regex : Type :=
| Void
| Eps
| Cls (p : ascii -> bool)
| Cat (r1 r2 : regex)
| Alt (r1 r2 : regex)
| Star (r : regex).

Fixpoint nullable (r : regex) : bool :=
  match r with
  | Void => false
  | Eps => true
  | Cls _ => false
  | Cat r1 r2 => (nullable r1 && nullable r2)%bool
  | Alt r1 r2 => (nullable r1 || nullable r2)%bool
  | Star _ => true
  end.

(** Constructors that drop the empty language, to keep derivatives small. *)
Definition cat (r1 r2 : regex) : regex :=
  match r1, r2 with
  | Void, _ => Void
  | _, Void => Void
  | _, _ => Cat r1 r2
  end.

Definition alt (r1 r2 : regex) : regex :=
  match r1, r2 with
  | Void, _ => r2
  | _, Void => r1
  | _, _ => Alt r1 r2
  end.

Fixpoint deriv (c : ascii) (r : regex) : regex :=
  match r with
  | Void => Void
  | Eps => Void
  | Cls p => if p c then Eps else Void
  | Cat r1 r2 =>
      if nullable r1 then alt (cat (deriv c r1) r2) (deriv c r2)
      else cat (deriv c r1) r2
  | Alt r1 r2 => alt (deriv c r1) (deriv c r2)
  | Star r1 => cat (deriv c r1) (Star r1)
  end.

(** The whole string is in the language of [r]. *)
Fixpoint matches (r : regex) (s : string) : bool :=
  match s with
  | EmptyString => nullable r
  | String c s' => matches (deriv c r) s'
  end.

(** Some prefix of the string is in the language of [r]. *)
Fixpoint matches_prefix (r : regex) (s : string) : bool :=
  (nullable r ||
   match s with
   | EmptyString => false
   | String c s' => matches_prefix (deriv c r) s'
   end)%bool.

(** Some suffix of the string satisfies [f]. *)
Fixpoint some_suffix (f : string -> bool) (s : string) : bool :=
  (f s ||
   match s with
   | EmptyString => false
   | String _ s' => some_suffix f s'
   end)%bool.

(** *** Pattern syntax *)

Definition chr (c : ascii) : regex := Cls (Ascii.eqb c).
(** A letter under [re.IGNORECASE]. *)
Definition chr_i (c : ascii) : regex :=
  Cls (fun x => Ascii.eqb (PyStr.lower_char x) (PyStr.lower_char c)).
Definition digit : regex := Cls PyStr.is_digit.              (* \d *)
Definition space : regex := Cls PyStr.is_space.              (* \s *)
Definition dot : regex := chr ".".                           (* \. *)
Definition any : regex :=                                    (* .  *)
  Cls (fun x => negb (Ascii.eqb x "010")).
Definition plus (r : regex) : regex := Cat r (Star r).       (* r+ *)
Definition opt (r : regex) : regex := Alt Eps r.             (* r? *)
Fixpoint at_least (n : nat) (r : regex) : regex :=           (* r{n,} *)
  match n with
  | O => Star r
  | S n' => Cat r (at_least n' r)
  end.
Fixpoint lit (s : string) : regex :=
  match s with
  | EmptyString => Eps
  | String c s' => Cat (chr c) (lit s')
  end.
Fixpoint lit_i (s : string) : regex :=
  match s with
  | EmptyString => Eps
  | String c s' => Cat (chr_i c) (lit_i s')
  end.
Fixpoint seq (l : list regex) : regex :=
  match l with
  | [] => Eps
  | [r] => r
  | r :: l' => Cat r (seq l')
  end.

(** *** The entry points of [re]

    A pattern is given without its anchors.  A leading [^] changes
    nothing under [re.match]; a trailing [$] holds at the end of the
    string and just before a newline that ends the string, which is what
    the [_end] variants add. *)

Definition at_end (r : regex) : regex := Cat r (opt (chr "010")).

Definition fullmatch (r : regex) (s : string) : bool := matches r s.
Definition match_ (r : regex) (s : string) : bool := matches_prefix r s.
Definition match_end (r : regex) (s : string) : bool :=
  matches (at_end r) s.
Definition search_end (r : regex) (s : string) : bool :=
  some_suffix (matches (at_end r)) s.

End Re.

(** ** Numbers *)

Module PyNum.

(** [round(x)]: to the nearest integer, ties to the even one. *)
Definition round (x : Q) : Z :=
  let f := Qfloor x in
  let d := (x - inject_Z f)%Q in
  match (d ?= 1 # 2)%Q with
  | Lt => f
  | Gt => f + 1
  | Eq => if Z.even f then f else f + 1
  end.

(** [round(x, 2)]: to the nearest hundredth, in lowest terms. *)
Definition round2 (x : Q) : Q :=
  Qred (inject_Z (round (x * 100)) / 100)%Q.

(** [abs(x)] *)
Definition abs (x : Q) : Q := Qabs x.

Definition ltb (x y : Q) : bool := negb (Qle_bool y x).
Definition leb (x y : Q) : bool := Qle_bool x y.

End PyNum.

(** ** Sorting and ordered dictionaries *)

Section Sorting.
Context {A : Type}.
Variable leb : A -> A -> bool.

(** Insertion before the first element that is not smaller: equal
    elements keep their order, as [sorted] and [list.sort] guarantee. *)
Fixpoint insert_sorted (x : A) (l : list A) : list A :=
  match l with
  | [] => [x]
  | y :: l' => if leb x y then x :: l else y :: insert_sorted x l'
  end.

Fixpoint sorted (l : list A) : list A :=
  match l with
  | [] => []
  | x :: l' => insert_sorted x (sorted l')
  end.

(** [sorted(l, reverse=True)]: the list is reversed, sorted and reversed
    again, which keeps equal elements in their original order. *)
Definition sorted_reverse (l : list A) : list A :=
  List.rev (sorted (List.rev l)).

End Sorting.

Section DefaultDict.
Context {K V : Type}.
Variable eqb : K -> K -> bool.

(** [d[k] = f(d[k])] on a [defaultdict] whose factory gives [dflt]; a new
    key goes last. *)
Fixpoint dd_update (k : K) (f : V -> V) (dflt : V) (d : list (K * V))
  : list (K * V) :=
  match d with
  | [] => [(k, f dflt)]
  | (k', v) :: d' =>
      if eqb k k' then (k', f v) :: d'
      else (k', v) :: dd_update k f dflt d'
  end.

(** [d[k]] on a [defaultdict], read only. *)
Fixpoint dd_get (k : K) (dflt : V) (d : list (K * V)) : V :=
  match d with
  | [] => dflt
  | (k', v) :: d' => if eqb k k' then v else dd_get k dflt d'
  end.

(** [d.keys()] *)
Definition dd_keys (d : list (K * V)) : list K := List.map fst d.

End DefaultDict.

(** ** Text cleaning (shared by both extractors) *)

(** [''.join(c for c, _ in itertools.groupby(text))] *)
Fixpoint groupby_keys (s : string) : string :=
  match s with
  | EmptyString => EmptyString
  | String c s' =>
      match s' with
      | EmptyString => String c EmptyString
      | String d _ =>
          if Ascii.eqb c d then groupby_keys s' else String c (groupby_keys s')
      end
  end.

(** [re.sub(r'\s+', ' ', text)]; [in_ws] says that the previous character
    was white space, already replaced. *)
Fixpoint sub_ws_aux (in_ws : bool) (s : string) : string :=
  match s with
  | EmptyString => EmptyString
  | String c s' =>
      if PyStr.is_space c
      then if in_ws then sub_ws_aux true s'
           else String " " (sub_ws_aux true s')
      else String c (sub_ws_aux false s')
  end.

Definition sub_ws (s : string) : string := sub_ws_aux false s.

Definition clean_text (text : string) : string :=
  let text := groupby_keys text in
  PyStr.strip (sub_ws text).

(** ** What the PDF library hands out

    Only the fields the extractors read.  [size], [fontname], [y0] and [x0]
    are read with [.get], so they may be absent; ['text'] is indexed
    directly and is always there. *)

Module Pdf.

Record char := {
  ch_text : string;
  ch_size : option Q;
  ch_fontname : option string
}.

Record word := {
  w_text : string;
  w_size : option Q;
  w_fontname : option string;
  w_x0 : option Q;
  w_y0 : option Q
}.

(** A line of [page.extract_text_lines(layout=True, strip=True)]. *)
Record text_line := {
  l_text : string;
  l_chars : list char
}.

Record page_obj := {
  chars : list char;
  (** [page.extract_words(y_tolerance=3)] *)
  extract_words_y3 : list word;
  (** [page.extract_words(x_tolerance=2, y_tolerance=2)] *)
  extract_words_x2_y2 : list word;
  extract_text_lines : list text_line
}.

Record pdf := { pages : list page_obj }.

(** [pdfplumber.open(pdf_path)] either raises or gives the document. *)
Inductive opened :=
| Raises
| Opened (doc : pdf).

(** [d.get(k, 0)] and [d.get(k, '')] *)
Definition get0 (x : option Q) : Q := default 0%Q x.
Definition get_str (x : option string) : string := default "" x.

(** [enumerate(l, 1)] *)
Fixpoint enumerate_from {A} (i : Z) (l : list A) : list (Z * A) :=
  match l with
  | [] => []
  | x :: l' => (i, x) :: enumerate_from (i + 1) l'
  end.

End Pdf.

(** ** The outline, as both extractors return it *)

Record entry := {
  level : string;
  text : string;
  page : Z
}.

Record result := {
  title : string;
  outline : list entry
}.

(** The post-processing loop of both extractors: one pass with the set of
    [(text.lower(), page)] pairs met so far. *)
Definition entry_tuple (e : entry) : string * Z := (PyStr.lower (text e), page e).

Definition dedup_step (st : list entry * gset (string * Z)) (e : entry)
  : list entry * gset (string * Z) :=
  let '(final_outline, seen_entries) := st in
  if decide (entry_tuple e ∈ seen_entries) then st
  else ((final_outline ++ [e])%list, seen_entries ∪ {[ entry_tuple e ]}).

Definition final_outline_of (outline : list entry) : list entry :=
  fst (fold_left dedup_step outline ([], ∅)).

(** ** [ext2.py] *)

Module Ext2.
Import Pdf.

Record font_stats := {
  h1_font_threshold : Q;
  h2_font_threshold : Q;
  h3_font_threshold : Q;
  h4_font_threshold : Q
}.

(** *** The patterns of [is_likely_heading] *)

Definition upper_AZ : ascii -> bool := PyStr.in_range 65 90.

(** [\.{4,}\s*\d+$] *)
Definition toc_entry : Re.regex :=
  Re.seq [Re.at_least 4 Re.dot; Re.Star Re.space; Re.plus Re.digit].

(** [^\d\.\d\s+[A-Z0-9\s]+$] *)
Definition revision_row : Re.regex :=
  Re.seq [Re.digit; Re.dot; Re.digit; Re.plus Re.space;
          Re.plus (Re.Cls (fun c => (upper_AZ c || PyStr.is_digit c
                                     || PyStr.is_space c)%bool))].

(** [^\d+\.\s] *)
Definition numbered_item : Re.regex :=
  Re.seq [Re.plus Re.digit; Re.dot; Re.space].

(** [Page\s*\d+(\s*of\s*\d+)?] with [re.IGNORECASE] *)
Definition page_footer : Re.regex :=
  Re.seq [Re.lit_i "Page"; Re.Star Re.space; Re.plus Re.digit;
          Re.opt (Re.seq [Re.Star Re.space; Re.lit_i "of";
                          Re.Star Re.space; Re.plus Re.digit])].

(** [\d+] *)
Definition only_digits : Re.regex := Re.plus Re.digit.

Definition is_likely_heading (line_text : string) (font_size : Q)
    (is_bold : bool) (font_stats : font_stats) (line_word_count : Z) : bool :=
  (* Rule 1 *)
  if (PyStr.is_empty line_text || (PyStr.len line_text <? 3))%bool then false
  (* Rule 2 *)
  else if Re.search_end toc_entry line_text then false
  (* Rule 3 *)
  else if ((line_word_count >? 12) || PyStr.endswith line_text ",")%bool
  then false
  (* Rule 4 *)
  else if Re.match_end revision_row line_text then false
  (* Rule 5 *)
  else if (Re.match_ numbered_item line_text && (line_word_count >? 8))%bool
  then false
  (* Rule 6 *)
  else if (PyStr.isupper line_text && (line_word_count >? 1)
           && PyNum.ltb font_size (h2_font_threshold font_stats))%bool
  then false
  (* Rule 7 *)
  else if (Re.fullmatch page_footer line_text
           || Re.fullmatch only_digits line_text)%bool
  then false
  (* Rule 8 *)
  else if (Re.match_ numbered_item line_text && negb is_bold
           && PyNum.ltb font_size (h2_font_threshold font_stats))%bool
  then false
  else true.

(** *** Phase 1: font statistics *)

Definition count_sizes (doc : pdf) : list (Q * Z) :=
  fold_left
    (fun font_sizes page =>
       fold_left
         (fun font_sizes char =>
            dd_update Qeq_bool (PyNum.round2 (get0 (ch_size char)))
                      (fun n => n + 1) 0 font_sizes)
         (chars page) font_sizes)
    (pages doc) [].

Definition font_stats_of (doc : pdf) : font_stats :=
  let sorted_sizes := sorted_reverse Qle_bool (dd_keys (count_sizes doc)) in
  {| h1_font_threshold := nth 0 sorted_sizes 0%Q;
     h2_font_threshold := nth 1 sorted_sizes 0%Q;
     h3_font_threshold := nth 2 sorted_sizes 0%Q;
     h4_font_threshold := nth 3 sorted_sizes 0%Q |}.

(** *** Phase 2: the title *)

Definition lines_with_max_font (first_page : page_obj) (max_font_size : Q)
  : list (Z * list string) :=
  fold_left
    (fun lines word =>
       if PyNum.ltb (PyNum.abs (get0 (w_size word) - max_font_size))
                    (1 # 10)
       then let y0 := PyNum.round (get0 (w_y0 word)) in
            dd_update Z.eqb y0 (fun l => (l ++ [w_text word])%list) [] lines
       else lines)
    (extract_words_y3 first_page) [].

Definition extracted_title (first_page : page_obj) (fs : font_stats) : string :=
  let max_font_size := h1_font_threshold fs in
  if PyNum.ltb 0 max_font_size then
    let lines := lines_with_max_font first_page max_font_size in
    match lines with
    | [] => ""
    | _ =>
        let sorted_y_coords := sorted Z.leb (dd_keys lines) in
        let title_parts :=
          List.map (fun y => PyStr.join " " (dd_get Z.eqb y [] lines))
                   (firstn 3 sorted_y_coords) in
        clean_text (PyStr.join " " title_parts)
    end
  else "".

Definition title_of (first_page : page_obj) (fs : font_stats) : string :=
  let title := extracted_title first_page fs in
  if (PyStr.is_empty title || (PyStr.len title <? 5))%bool
  then "Untitled Document" else title.

(** *** Phase 3: headings *)

(** [^(Appendix\s[A-Z]|\d+)\.\s+.*] *)
Definition h1_pattern : Re.regex :=
  Re.seq [Re.Alt (Re.seq [Re.lit "Appendix"; Re.space; Re.Cls upper_AZ])
                 (Re.plus Re.digit);
          Re.dot; Re.plus Re.space; Re.Star Re.any].
(** [^\d+\.\d+\s+.*] *)
Definition h2_pattern : Re.regex :=
  Re.seq [Re.plus Re.digit; Re.dot; Re.plus Re.digit;
          Re.plus Re.space; Re.Star Re.any].
(** [^\d+\.\d+\.\d+\s+.*] *)
Definition h3_pattern : Re.regex :=
  Re.seq [Re.plus Re.digit; Re.dot; Re.plus Re.digit; Re.dot;
          Re.plus Re.digit; Re.plus Re.space; Re.Star Re.any].
(** [^\d+\.\d+\.\d+\.\d+\s+.*] *)
Definition h4_pattern : Re.regex :=
  Re.seq [Re.plus Re.digit; Re.dot; Re.plus Re.digit; Re.dot;
          Re.plus Re.digit; Re.dot; Re.plus Re.digit;
          Re.plus Re.space; Re.Star Re.any].

(** The primary method alone: the level the numbering gives, if any. *)
Definition numbered_level (line_text : string) : option string :=
  if Re.match_ h4_pattern line_text then Some "H4"
  else if Re.match_ h3_pattern line_text then Some "H3"
  else if Re.match_ h2_pattern line_text then Some "H2"
  else if Re.match_ h1_pattern line_text then Some "H1"
  else None.

(** The fallback alone: bold or upper-case lines, by font size. *)
Definition style_level (line_text : string) (font_size : Q) (is_bold : bool)
    (fs : font_stats) : option string :=
  if (is_bold || PyStr.isupper line_text)%bool then
    if PyNum.leb (h1_font_threshold fs * (9 # 10)) font_size then Some "H1"
    else if PyNum.leb (h2_font_threshold fs * (9 # 10)) font_size
    then Some "H2"
    else if PyNum.leb (h3_font_threshold fs * (9 # 10)) font_size
    then Some "H3"
    else None
  else None.

(** [current_level] after the [if]/[elif] chain. *)
Definition current_level (line_text : string) (font_size : Q)
    (is_bold : bool) (fs : font_stats) : option string :=
  match numbered_level line_text with
  | Some l => Some l
  | None => style_level line_text font_size is_bold fs
  end.

(** The decision for a cleaned line: [None] when the line is skipped or
    gets no level. *)
Definition classify (line_text : string) (font_size : Q) (is_bold : bool)
    (fs : font_stats) : option string :=
  let line_word_count := Z.of_nat (List.length (PyStr.split line_text)) in
  if negb (is_likely_heading line_text font_size is_bold fs line_word_count)
  then None
  else current_level line_text font_size is_bold fs.

Definition bold_name (font_name : string) : bool :=
  (PyStr.contains "bold" font_name || PyStr.contains "black" font_name
   || PyStr.contains "heavy" font_name)%bool.

(** The body of the loop over the lines of a page. *)
Definition line_step (fs : font_stats) (page_num : Z)
    (outline : list entry) (line : text_line) : list entry :=
  let line_text := clean_text (l_text line) in
  match List.find (fun c => negb (PyStr.is_empty (PyStr.strip (ch_text c))))
                  (l_chars line) with
  | None => outline
  | Some first_char =>
      let font_size := PyNum.round2 (get0 (ch_size first_char)) in
      let font_name := PyStr.lower (get_str (ch_fontname first_char)) in
      let is_bold := bold_name font_name in
      match classify line_text font_size is_bold fs with
      | None => outline
      | Some lvl =>
          (outline
             ++ [{| level := lvl; text := line_text; page := page_num |}])%list
      end
  end.

Definition headings (doc : pdf) (fs : font_stats) : list entry :=
  fold_left
    (fun outline '(page_num, page) =>
       fold_left (line_step fs page_num) (extract_text_lines page) outline)
    (enumerate_from 1 (pages doc)) [].

(** *** The extractor *)

Definition extract_outline_with_pdfplumber (o : opened) : result :=
  match o with
  | Raises => {| title := "Error Processing Document"; outline := [] |}
  | Opened doc =>
      match pages doc with
      | [] => {| title := "Empty Document"; outline := [] |}
      | first_page :: _ =>
          let fs := font_stats_of doc in
          let title := title_of first_page fs in
          let outline := headings doc fs in
          {| title := title; outline := final_outline_of outline |}
      end
  end.

End Ext2.

(** ** [ext3.py] *)

Module Ext3.
Import Pdf.

(** [max(font_sizes, key=font_sizes.get)]: the first key, in insertion
    order, whose count is the largest. *)
Fixpoint max_by_count (best : Z * Z) (d : list (Z * Z)) : Z :=
  match d with
  | [] => fst best
  | (k, v) :: d' =>
      if snd best <? v then max_by_count (k, v) d' else max_by_count best d'
  end.

Definition count_sizes (doc : pdf) : list (Z * Z) :=
  fold_left
    (fun font_sizes page =>
       fold_left
         (fun font_sizes word =>
            let size := PyNum.round (get0 (w_size word)) in
            dd_update Z.eqb size (fun n => n + 1) 0 font_sizes)
         (extract_words_x2_y2 page) font_sizes)
    (pages doc) [].

Definition analyze_document_styles (doc : pdf) : Z * list Z :=
  let font_sizes := count_sizes doc in
  match font_sizes with
  | [] => (0, [])
  | first :: rest =>
      let body_size := max_by_count first rest in
      let heading_sizes :=
        sorted_reverse Z.leb
          (List.filter (fun size => size >? body_size + 1)
                       (dd_keys font_sizes)) in
      (body_size, heading_sizes)
  end.

(** [{size: f"H{i+1}" for i, size in enumerate(heading_sizes)}] *)
Fixpoint level_map_from (i : nat) (heading_sizes : list Z)
  : list (Z * string) :=
  match heading_sizes with
  | [] => []
  | size :: l => (size, "H" ++ pretty (S i)) :: level_map_from (S i) l
  end.

Definition level_map (heading_sizes : list Z) : list (Z * string) :=
  level_map_from 0 heading_sizes.

(** *** Phase 2: the title *)

Definition title_lines (potential_titles : list word)
  : list (Z * list string) :=
  fold_left
    (fun title_lines word =>
       let y0 := PyNum.round (get0 (w_y0 word)) in
       dd_update Z.eqb y0 (fun l => (l ++ [w_text word])%list) []
                 title_lines)
    potential_titles [].

(** [cleaned_title], when the code gets as far as computing it. *)
Definition cleaned_title (first_page : page_obj) (heading_sizes : list Z)
  : option string :=
  match heading_sizes with
  | [] => None
  | max_heading_size :: _ =>
      let potential_titles :=
        List.filter
          (fun word => PyNum.round (get0 (w_size word)) =? max_heading_size)
          (extract_words_y3 first_page) in
      match potential_titles with
      | [] => None
      | _ =>
          let title_lines := title_lines potential_titles in
          match title_lines with
          | [] => None
          | _ =>
              let sorted_y := sorted Z.leb (dd_keys title_lines) in
              let full_title :=
                PyStr.join " "
                  (List.map
                     (fun y => PyStr.join " " (dd_get Z.eqb y [] title_lines))
                     sorted_y) in
              Some (clean_text full_title)
          end
      end
  end.

(** [title] starts as the default and is overwritten by a cleaned title
    that is not empty. *)
Definition title_of (first_page : page_obj) (heading_sizes : list Z)
  : string :=
  match cleaned_title first_page heading_sizes with
  | Some cleaned_title =>
      if negb (PyStr.is_empty cleaned_title) then cleaned_title
      else "Untitled Document"
  | None => "Untitled Document"
  end.

(** *** Phase 3: the outline *)

(** [\.{3,}\s*\d+$] *)
Definition toc_entry : Re.regex :=
  Re.seq [Re.at_least 3 Re.dot; Re.Star Re.space; Re.plus Re.digit].
(** [^\d\.\d\s] *)
Definition revision_row : Re.regex :=
  Re.seq [Re.digit; Re.dot; Re.digit; Re.space].
(** [^\d+(\.\d+)*\s] *)
Definition numbered_item : Re.regex :=
  Re.seq [Re.plus Re.digit; Re.Star (Re.Cat Re.dot (Re.plus Re.digit));
          Re.space].

Definition lines_of (words : list word) : list (Z * list word) :=
  fold_left
    (fun lines word =>
       let y0 := PyNum.round (get0 (w_y0 word)) in
       dd_update Z.eqb y0 (fun l => (l ++ [word])%list) [] lines)
    words [].

Definition bold_name (font_name : string) : bool :=
  (PyStr.contains "bold" font_name || PyStr.contains "black" font_name
   || PyStr.contains "heavy" font_name)%bool.

(** The body of the loop over the rows of a page. *)
Definition row_step (heading_sizes : list Z) (page_num : Z)
    (lines : list (Z * list word)) (outline : list entry) (y : Z)
  : list entry :=
  let line_words :=
    sorted (fun a b => Qle_bool (get0 (w_x0 a)) (get0 (w_x0 b)))
           (dd_get Z.eqb y [] lines) in
  match line_words with
  | [] => outline
  | first_word :: _ =>
      let line_text :=
        clean_text (PyStr.join " " (List.map w_text line_words)) in
      let font_size := PyNum.round (get0 (w_size first_word)) in
      let font_name := PyStr.lower (get_str (w_fontname first_word)) in
      let is_bold := bold_name font_name in
      let n_words := Z.of_nat (List.length line_words) in
      (* Rule 1 *)
      if negb (existsb (Z.eqb font_size) heading_sizes) then outline
      (* Rule 2 *)
      else if (negb is_bold && negb (PyStr.isupper line_text))%bool
      then outline
      (* Rule 3 *)
      else if Re.search_end toc_entry line_text then outline
      (* Rule 4 *)
      else if Re.match_ revision_row line_text then outline
      (* Rule 5 *)
      else if (Re.match_ numbered_item line_text && (n_words >? 8))%bool
      then outline
      (* Rule 6 *)
      else if n_words >? 12 then outline
      else
        let level :=
          match List.find (fun kv => Z.eqb font_size (fst kv))
                          (level_map heading_sizes) with
          | Some kv => snd kv
          | None => "H4"
          end in
        (outline
           ++ [{| level := level; text := line_text; page := page_num |}])%list
  end.

Definition headings (doc : pdf) (heading_sizes : list Z) : list entry :=
  fold_left
    (fun outline '(page_num, page) =>
       let lines := lines_of (extract_words_x2_y2 page) in
       let sorted_y_coords := sorted Z.leb (dd_keys lines) in
       fold_left (row_step heading_sizes page_num lines)
                 sorted_y_coords outline)
    (enumerate_from 1 (pages doc)) [].

(** *** The extractor *)

Definition extract_outline_with_pdfplumber (o : opened) : result :=
  match o with
  | Raises => {| title := "Error Processing Document"; outline := [] |}
  | Opened doc =>
      match pages doc with
      | [] => {| title := "Empty Document"; outline := [] |}
      | first_page :: _ =>
          let '(body_size, heading_sizes) := analyze_document_styles doc in
          let title := title_of first_page heading_sizes in
          let outline := headings doc heading_sizes in
          {| title := title; outline := final_outline_of outline |}
      end
  end.

End Ext3.

(** ** [src/persona_analyst.py] *)

Module Persona.
Import Pdf.

(** *** Exceptions and the module's name space *)

Inductive exn :=
| NameError (name : string).

Inductive outcome (A : Type) :=
| Ok (a : A)
| Raised (e : exn).
Arguments Ok {A} a.
Arguments Raised {A} e.

Definition bind {A B} (m : outcome A) (k : A -> outcome B) : outcome B :=
  match m with
  | Ok a => k a
  | Raised e => Raised e
  end.

(** The global names of the module once it is loaded: what its [import]
    statements, its assignment to [nlp] and its two [def]s bind. *)
Definition module_globals : list string :=
  ["os"; "json"; "sys"; "spacy"; "defaultdict"; "TfidfVectorizer";
   "cosine_similarity"; "np"; "datetime";
   "extract_outline_with_pdfplumber"; "nlp";
   "get_text_content_for_section"; "analyze_document_collection"].

(** A name is looked up when the statement that uses it runs. *)
Definition bound (globals : list string) (name : string) : bool :=
  existsb (String.eqb name) globals.

(** *** What the other libraries hand out *)

Record token := {
  lemma_ : string;
  is_alpha : bool;
  is_stop : bool;
  is_punct : bool
}.

(** A sentence of [doc.sents]. *)
Record span := {
  span_text : string;
  span_tokens : list token
}.

Record doc := {
  doc_tokens : list token;
  sents : list span
}.

(** [os.path.basename] *)
Fixpoint basename_aux (cur : string) (path : string) : string :=
  match path with
  | EmptyString => cur
  | String c path' =>
      if Ascii.eqb c "/" then basename_aux "" path'
      else basename_aux (cur ++ String c "") path'
  end.
Definition basename (path : string) : string := basename_aux "" path.

(** [range(a, b)] *)
Definition range (a b : Z) : list Z :=
  List.map (fun k => a + Z.of_nat k) (List.seq 0 (Z.to_nat (b - a))).

(** [l[i]], with Python's negative indices; [None] is [IndexError]. *)
Definition index {A} (l : list A) (i : Z) : option A :=
  let n := Z.of_nat (List.length l) in
  if (0 <=? i) && (i <? n) then nth_error l (Z.to_nat i)
  else if (- n <=? i) && (i <? 0) then nth_error l (Z.to_nat (n + i))
  else None.

(** Truth value of an optional [int] and of an optional [str]. *)
Definition truthy_int (x : option Z) : bool :=
  match x with Some n => negb (n =? 0) | None => false end.
Definition truthy_str (x : option string) : bool :=
  match x with Some s => negb (PyStr.is_empty s) | None => false end.

(** *** Section text *)

(** State of the loop over the lines of one page. *)
Record scan := {
  found_title : bool;
  stopped : bool;                        (* [break] was executed *)
  text_content_parts : list string
}.

Definition line_step (current_p_idx : Z) (section_title : string)
    (next_section_page_number : option Z)
    (next_section_title : option string) (st : scan) (line_data : text_line)
  : scan :=
  if stopped st then st
  else
    let cleaned_line_text := PyStr.strip (l_text line_data) in
    if negb (found_title st) then
      if PyStr.contains section_title cleaned_line_text then
        {| found_title := true; stopped := false;
           text_content_parts :=
             (text_content_parts st ++ [cleaned_line_text])%list |}
      else st
    else if (truthy_int next_section_page_number
             && truthy_str next_section_title
             && (current_p_idx =? default 0 next_section_page_number - 1)
             && PyStr.contains (default "" next_section_title)
                               cleaned_line_text)%bool
    then {| found_title := true; stopped := true;
            text_content_parts := text_content_parts st |}
    else {| found_title := true; stopped := false;
            text_content_parts :=
              (text_content_parts st ++ [cleaned_line_text])%list |}.

(** The loop over the pages.  An [IndexError] from [pdf.pages[...]] ends
    it too: the handler of the caller keeps the parts collected so far. *)
Fixpoint page_loop (doc : pdf) (section_title : string)
    (next_section_page_number : option Z)
    (next_section_title : option string) (idxs : list Z)
    (parts : list string) : list string :=
  match idxs with
  | [] => parts
  | current_p_idx :: idxs' =>
      match index (pages doc) current_p_idx with
      | None => parts
      | Some page =>
          let lines := extract_text_lines page in
          let st :=
            fold_left
              (line_step current_p_idx section_title
                         next_section_page_number next_section_title)
              lines
              {| found_title := false; stopped := false;
                 text_content_parts := parts |} in
          let parts := text_content_parts st in
          if (truthy_int next_section_page_number
              && (default 0 next_section_page_number - 1 <=? current_p_idx))%bool
          then parts
          else page_loop doc section_title next_section_page_number
                         next_section_title idxs' parts
      end
  end.

Section Analyst.
(** The name space the functions run in. *)
Variable globals : list string.
(** [pdfplumber.open], as a function of the path. *)
Variable pdfplumber_open : string -> opened.
(** The function imported from [outline_extractor]. *)
Variable extract_outline_with_pdfplumber : string -> result.
(** The spaCy pipeline. *)
Variable nlp : string -> doc.
(** [cosine_similarity(tfidf_matrix[-1], tfidf_matrix[:-1]).flatten()[i]]
    for the TF-IDF matrix of the given corpus. *)
Variable tfidf_cosine : list string -> nat -> Q.
(** [datetime.now().isoformat()] *)
Variable now : string.

(** The [try] block: either it executes [return ""], or it ends,
    normally or in the handler, with the parts collected. *)
Definition try_block (pdf_path : string) (page_number : Z)
    (section_title : string) (next_section_page_number : option Z)
    (next_section_title : option string)
  : option string * list string :=
  if negb (bound globals "pdfplumber") then (None, [])
  else
    match pdfplumber_open pdf_path with
    | Raises => (None, [])
    | Opened doc =>
        let n := Z.of_nat (List.length (pages doc)) in
        if page_number >? n then (Some "", [])
        else
          (None,
           page_loop doc section_title next_section_page_number
                     next_section_title (range (page_number - 1) n) [])
    end.

Definition get_text_content_for_section (pdf_path : string)
    (page_number : Z) (section_title : string)
    (next_section_page_number : option Z)
    (next_section_title : option string) : outcome string :=
  match try_block pdf_path page_number section_title
                  next_section_page_number next_section_title with
  | (Some r, _) => Ok r
  | (None, text_content_parts) =>
      let full_text := PyStr.join " " text_content_parts in
      if bound globals "re" then Ok (PyStr.strip (sub_ws full_text))
      else Raised (NameError "re")
  end.

(** *** Step 1: the sections of all documents *)

Record section := {
  document : string;
  page_number : Z;
  section_title : string;
  full_text_content : string;
  importance_rank : Q
}.

Record boundary := {
  b_title : string;
  b_page : Z;
  doc_path : string;
  next_title : option string;
  next_page : option Z
}.

Fixpoint section_boundaries (pdf_file_path : string)
    (outline : list entry) : list boundary :=
  match outline with
  | [] => []
  | e :: rest =>
      {| b_title := text e; b_page := page e; doc_path := pdf_file_path;
         next_title := option_map text (head rest);
         next_page := option_map page (head rest) |}
      :: section_boundaries pdf_file_path rest
  end.

Fixpoint extract_sections (bs : list boundary) (acc : list section)
  : outcome (list section) :=
  match bs with
  | [] => Ok acc
  | section_info :: bs' =>
      bind (get_text_content_for_section
              (doc_path section_info) (b_page section_info)
              (b_title section_info) (next_page section_info)
              (next_title section_info))
           (fun section_content =>
              extract_sections bs'
                (acc ++ [{| document := basename (doc_path section_info);
                            page_number := b_page section_info;
                            section_title := b_title section_info;
                            full_text_content := section_content;
                            importance_rank := 0 |}])%list)
  end.

Fixpoint all_extracted_sections (pdf_file_paths : list string)
    (acc : list section) : outcome (list section) :=
  match pdf_file_paths with
  | [] => Ok acc
  | pdf_file_path :: rest =>
      let outline_result := extract_outline_with_pdfplumber pdf_file_path in
      bind (extract_sections
              (section_boundaries pdf_file_path (outline outline_result))
              acc)
           (all_extracted_sections rest)
  end.

(** *** Step 2: ranking *)

Definition query_text_of (persona_definition job_to_be_done : string)
  : string :=
  "Persona: " ++ persona_definition ++ ". Job: " ++ job_to_be_done.

Fixpoint assign_ranks (corpus : list string) (i : nat)
    (sections : list section) : list section :=
  match sections with
  | [] => []
  | section :: rest =>
      {| document := document section;
         page_number := page_number section;
         section_title := section_title section;
         full_text_content := full_text_content section;
         importance_rank := tfidf_cosine corpus i |}
      :: assign_ranks corpus (S i) rest
  end.

(** [ranked_sections] after [sort(key=..., reverse=True)]. *)
Definition ranked_sections (query_text : string)
    (sections : list section) : list section :=
  let section_texts := List.map full_text_content sections in
  let corpus := (section_texts ++ [query_text])%list in
  sorted_reverse
    (fun a b => Qle_bool (importance_rank a) (importance_rank b))
    (assign_ranks corpus 0 sections).

(** *** Step 3: refinement *)

Definition keywords (tokens : list token) : list string :=
  List.map lemma_
    (List.filter
       (fun token => (is_alpha token && negb (is_stop token)
                      && negb (is_punct token))%bool)
       tokens).

Definition intersection (query_keywords sent_keywords : list string) : Z :=
  Z.of_nat (size ((list_to_set query_keywords : gset string)
                  ∩ list_to_set sent_keywords)).

Definition union (query_keywords sent_keywords : list string) : Z :=
  Z.of_nat (size ((list_to_set query_keywords : gset string)
                  ∪ list_to_set sent_keywords)).

Definition jaccard_similarity (query_keywords sent_keywords : list string)
  : Q :=
  (inject_Z (intersection query_keywords sent_keywords)
   / inject_Z (union query_keywords sent_keywords))%Q.

(** The sentence passes both [if]s. *)
Definition is_relevant (query_keywords : list string) (sent : span)
  : bool :=
  let sent_keywords := keywords (span_tokens sent) in
  ((union query_keywords sent_keywords >? 0)
   && PyNum.ltb (5 # 100)
        (jaccard_similarity query_keywords sent_keywords))%bool.

Definition total_length (l : list string) : Z :=
  fold_right (fun s n => PyStr.len s + n) 0 l.

(** The loop over the sentences of one section. *)
Fixpoint relevant_sentences (query_keywords : list string)
    (sentences : list span) (acc : list string) : list string :=
  match sentences with
  | [] => acc
  | sent :: rest =>
      let acc :=
        if is_relevant query_keywords sent
        then (acc ++ [PyStr.strip (span_text sent)])%list else acc in
      if total_length acc >? 1000 then acc
      else relevant_sentences query_keywords rest acc
  end.

Record refined := {
  r_document : string;
  r_page_number : Z;
  refined_text : string
}.

Definition top_n_sections_for_sub_analysis : nat := 5.

(** The loop over the ranked sections, entered at index [i]. *)
Fixpoint sub_section_loop (query_keywords : list string) (i : nat)
    (ranked : list section) (sub_section_analysis : list refined)
  : list refined :=
  match ranked with
  | [] => sub_section_analysis
  | section :: rest =>
      if Nat.leb top_n_sections_for_sub_analysis i
      then sub_section_analysis
      else if PyStr.is_empty (full_text_content section)
      then sub_section_loop query_keywords (S i) rest sub_section_analysis
      else
        let doc := nlp (full_text_content section) in
        let relevant := relevant_sentences query_keywords (sents doc) [] in
        match relevant with
        | [] =>
            sub_section_loop query_keywords (S i) rest sub_section_analysis
        | _ =>
            sub_section_loop query_keywords (S i) rest
              (sub_section_analysis
                 ++ [{| r_document := document section;
                        r_page_number := page_number section;
                        refined_text := PyStr.join " " relevant |}])%list
        end
  end.

(** *** The analysis *)

Record metadata := {
  input_documents : list string;
  persona : string;
  job_to_be_done : string;
  processing_timestamp : string
}.

Record extracted := {
  e_document : string;
  e_page_number : Z;
  e_section_title : string;
  e_importance_rank : Q
}.

Record analysis := {
  a_metadata : metadata;
  extracted_sections : list extracted;
  sub_section_analysis : list refined
}.

Definition drop_content (sec : section) : extracted :=
  {| e_document := document sec; e_page_number := page_number sec;
     e_section_title := section_title sec;
     e_importance_rank := importance_rank sec |}.

Definition analyze_document_collection (pdf_file_paths : list string)
    (persona_definition job : string) : outcome analysis :=
  let metadata :=
    {| input_documents := List.map basename pdf_file_paths;
       persona := persona_definition; job_to_be_done := job;
       processing_timestamp := now |} in
  bind (all_extracted_sections pdf_file_paths [])
    (fun sections =>
       match sections with
       | [] => Ok {| a_metadata := metadata; extracted_sections := [];
                     sub_section_analysis := [] |}
       | _ =>
           let query_text := query_text_of persona_definition job in
           let query_doc := nlp query_text in
           let ranked := ranked_sections query_text sections in
           let query_keywords := keywords (doc_tokens query_doc) in
           Ok {| a_metadata := metadata;
                 extracted_sections := List.map drop_content ranked;
                 sub_section_analysis :=
                   sub_section_loop query_keywords 0 ranked [] |}
       end).

End Analyst.

End Persona.

(** ** Concrete documents used below *)

Module Scenario.
Import Pdf.

Definition mk_char (t : string) (size : Q) (fontname : string) : char :=
  {| ch_text := t; ch_size := Some size; ch_fontname := Some fontname |}.

Definition mk_word (t : string) (size : Q) (fontname : string) (x0 y0 : Q)
  : word :=
  {| w_text := t; w_size := Some size; w_fontname := Some fontname;
     w_x0 := Some x0; w_y0 := Some y0 |}.

(** A readable file without pages. *)
Definition no_pages : pdf := {| pages := [] |}.

(** Font sizes 14, 12 and 10. *)
Definition three_sizes : Ext2.font_stats :=
  {| Ext2.h1_font_threshold := 14; Ext2.h2_font_threshold := 12;
     Ext2.h3_font_threshold := 10; Ext2.h4_font_threshold := 0 |}.



(** A page whose only line is a table-of-contents row in a bold font of
    the largest size. *)
Definition toc_line : text_line :=
  {| l_text := "Introduction ..... 5";
     l_chars := [mk_char "I" 14 "Arial-Bold"; mk_char "n" 14 "Arial-Bold"] |}.

Definition toc_page : page_obj :=
  {| chars := [mk_char "I" 14 "Arial-Bold"; mk_char "n" 14 "Arial-Bold"];
     extract_words_y3 := []; extract_words_x2_y2 := [];
     extract_text_lines := [toc_line] |}.

Definition toc_document : pdf := {| pages := [toc_page] |}.




(** A one-page report with two numbered headings in bold, each followed
    by a line of body text. *)
Definition report_line (t : string) (size : Q) (fontname : string)
  : text_line :=
  {| l_text := t; l_chars := [mk_char (String.substring 0 1 t) size fontname] |}.

Definition report_page : page_obj :=
  {| chars := [mk_char "1" 14 "Arial-Bold"; mk_char "S" 10 "Arial";
               mk_char "2" 14 "Arial-Bold"; mk_char "W" 10 "Arial"];
     extract_words_y3 := []; extract_words_x2_y2 := [];
     extract_text_lines :=
       [report_line "1. Introduction" 14 "Arial-Bold";
        report_line "Some body text about learning." 10 "Arial";
        report_line "2. Methods" 14 "Arial-Bold";
        report_line "We use pipelines." 10 "Arial"] |}.

Definition report : pdf := {| pages := [report_page] |}.

(** A file system with that report and nothing else. *)
Definition open_file (path : string) : opened :=
  if String.eqb path "input/report.pdf" then Opened report else Raises.

Definition extract (path : string) : result :=
  Ext2.extract_outline_with_pdfplumber (open_file path).


(** Scores that tie the two sections. *)
Definition tied_scores (corpus : list string) (i : nat) : Q := 1 # 4.

(** A pipeline that makes one sentence of any text, about cooking. *)
Definition cooking_token (lemma : string) : Persona.token :=
  {| Persona.lemma_ := lemma; Persona.is_alpha := true;
     Persona.is_stop := false; Persona.is_punct := false |}.

Definition cooking_nlp (t : string) : Persona.doc :=
  {| Persona.doc_tokens := [];
     Persona.sents :=
       [{| Persona.span_text := t;
           Persona.span_tokens :=
             [cooking_token "cooking"; cooking_token "recipe"] |}] |}.

Definition cooking_section : Persona.section :=
  {| Persona.document := "report.pdf"; Persona.page_number := 1;
     Persona.section_title := "Recipes";
     Persona.full_text_content := "Recipes Cooking recipes.";
     Persona.importance_rank := 0 |}.

End Scenario.

(** ** Notions used in the statements *)

(** The (lowercased text, page) pairs of a list of entries. *)
Definition keys (l : list entry) : list (string * Z) :=
  List.map entry_tuple l.





(** The module's name space with the two missing imports added. *)
Definition repaired_globals : list string :=
  "re" :: "pdfplumber" :: Persona.module_globals.

(** The language of a pattern: what the matcher of [Re] decides. *)
Inductive lang : Re.regex -> string -> Prop :=
| lang_eps : lang Re.Eps ""
| lang_cls p c : p c = true -> lang (Re.Cls p) (String c "")
| lang_cat r1 r2 s1 s2 :
    lang r1 s1 -> lang r2 s2 -> lang (Re.Cat r1 r2) (s1 ++ s2)
| lang_alt_l r1 r2 s : lang r1 s -> lang (Re.Alt r1 r2) s
| lang_alt_r r1 r2 s : lang r2 s -> lang (Re.Alt r1 r2) s
| lang_star_nil r : lang (Re.Star r) ""
| lang_star_cons r s1 s2 :
    lang r s1 -> lang (Re.Star r) s2 -> lang (Re.Star r) (s1 ++ s2).

(** No character stands twice in a row. *)
Fixpoint no_doubled (s : string) : bool :=
  match s with
  | EmptyString => true
  | String c s' =>
      match s' with
      | EmptyString => true
      | String d _ => (negb (Ascii.eqb c d) && no_doubled s')%bool
      end
  end.

(** The first character of a string. *)
Definition first_char (s : string) : option ascii :=
  match s with
  | EmptyString => None
  | String c _ => Some c
  end.




(** ** The command-line entry of [src/persona_analyst.py] *)

Module PersonaMain.

(** [s.split(sep)] for a one-character separator; [cur] is the piece being
    read, in reverse. *)
Fixpoint split_on_aux (sep : ascii) (cur : list ascii) (s : string)
  : list string :=
  match s with
  | EmptyString => [string_of_list_ascii (List.rev cur)]
  | String c s' =>
      if Ascii.eqb c sep
      then string_of_list_ascii (List.rev cur) :: split_on_aux sep [] s'
      else split_on_aux sep (c :: cur) s'
  end.

Definition split_on (sep : ascii) (s : string) : list string :=
  split_on_aux sep [] s.

(** [[p.strip() for p in pdf_paths_str.split(',') if p.strip()]] *)
Definition pdf_files_of (pdf_paths_str : string) : list string :=
  List.map PyStr.strip
    (List.filter (fun p => negb (PyStr.is_empty (PyStr.strip p)))
                 (split_on "," pdf_paths_str)).

End PersonaMain.

(** ** [run_local.py] *)

Module RunLocal.

Inductive exn :=
| NameError (name : string)
| SystemExit (code : Z).

(** The global names of the module: its three imports and its [def]. *)
Definition module_globals : list string :=
  ["os"; "subprocess"; "glob"; "run_scenario"].

(** What the file system shows of one scenario directory: the matches of
    [*.pdf] and the contents of [persona.txt] and [job.txt] where they
    exist. *)
Record scenario := {
  scenario_path : string;
  pdf_files : list string;
  persona_txt : option string;
  job_txt : option string
}.

(** What a run did: the directories it made, the commands it handed to
    [subprocess.run], and the exception it ended with, if any. *)
Record run := {
  makedirs : list string;
  launched : list (list string);
  raised : option exn
}.

(** [os.path.join] of two components. *)
Definition path_join (a b : string) : string :=
  if String.prefix "/" b then b
  else if (PyStr.is_empty a || PyStr.endswith a "/")%bool then a ++ b
  else a ++ "/" ++ b.

(** [f.read().strip()], or the empty default. *)
Definition read_stripped (file : option string) : string :=
  match file with
  | Some content => PyStr.strip content
  | None => ""
  end.

Definition nothing : run := {| makedirs := []; launched := []; raised := None |}.

Section Driver.
(** The name space the functions run in, and [sys.executable]. *)
Variable globals : list string.
Variable sys_executable : string.

Definition run_scenario (s : scenario) (output_base_dir : string) : run :=
  match pdf_files s with
  | [] => nothing
  | _ =>
      let persona_definition := read_stripped (persona_txt s) in
      let job_to_be_done := read_stripped (job_txt s) in
      if (PyStr.is_empty persona_definition
          && PyStr.is_empty job_to_be_done)%bool
      then nothing
      else
        let pdf_paths_str := PyStr.join "," (pdf_files s) in
        let scenario_output_dir :=
          path_join output_base_dir (Persona.basename (scenario_path s)) in
        let output_json_path :=
          path_join scenario_output_dir "challenge1b_output.json" in
        if Persona.bound globals "sys" then
          {| makedirs := [scenario_output_dir];
             launched :=
               [[sys_executable; path_join "src" "persona_analyst.py";
                 pdf_paths_str; persona_definition; job_to_be_done;
                 output_json_path]];
             raised := None |}
        else
          {| makedirs := [scenario_output_dir]; launched := [];
             raised := Some (NameError "sys") |}
  end.

(** The loop of the main block: it stops at the first exception. *)
Fixpoint run_all (scenarios : list scenario) (output_results_base : string)
    (done : run) : run :=
  match scenarios with
  | [] => done
  | s :: rest =>
      let r := run_scenario s output_results_base in
      let done :=
        {| makedirs := (makedirs done ++ makedirs r)%list;
           launched := (launched done ++ launched r)%list;
           raised := raised r |} in
      match raised r with
      | Some _ => done
      | None => run_all rest output_results_base done
      end
  end.

(** The main block, given the scenario directories found under
    [input_data]. *)
Definition main (current_dir : string) (scenarios : list scenario) : run :=
  let output_results_base := path_join current_dir "output_results" in
  let start :=
    {| makedirs := [output_results_base]; launched := []; raised := None |} in
  match scenarios with
  | [] =>
      {| makedirs := [output_results_base]; launched := [];
         raised := Some (if Persona.bound globals "sys" then SystemExit 0
                         else NameError "sys") |}
  | _ => run_all scenarios output_results_base start
  end.

End Driver.

(** The scenario is skipped: no PDF, or neither persona nor job. *)
Definition skipped (s : scenario) : bool :=
  match pdf_files s with
  | [] => true
  | _ => (PyStr.is_empty (read_stripped (persona_txt s))
          && PyStr.is_empty (read_stripped (job_txt s)))%bool
  end.

End RunLocal.

(** ** More notions used in the statements *)

(** Every white-space character is a plain space. *)
Definition only_plain_spaces (s : string) : bool :=
  PyStr.forallb_str
    (fun c => (negb (PyStr.is_space c) || Ascii.eqb c " ")%bool) s.

(** The last character of a string. *)
Fixpoint last_char (s : string) : option ascii :=
  match s with
  | EmptyString => None
  | String c EmptyString => Some c
  | String _ s' => last_char s'
  end.

(** All the words of a document, as [ext3.py] reads them. *)
Definition all_words (doc : Pdf.pdf) : list Pdf.word :=
  List.flat_map Pdf.extract_words_x2_y2 (Pdf.pages doc).

(** How many words of the document have the given rounded size. *)
Definition occurrences (doc : Pdf.pdf) (size : Z) : Z :=
  Z.of_nat
    (List.length
       (List.filter
          (fun w => PyNum.round (Pdf.get0 (Pdf.w_size w)) =? size)
          (all_words doc))).

(** The retained form of a sentence. *)
Definition retained_text (sent : Persona.span) : string :=
  PyStr.strip (Persona.span_text sent).

(** The start of a line read as tokens: a maximal run of digits, a dot, a
    white-space character; reading stops at any other character.
    [in_number] says that the previous character was a digit. *)
Inductive token := Number | Dot | Space | Other.

Fixpoint tokens (in_number : bool) (s : string) : list token :=
  match s with
  | EmptyString => []
  | String c s' =>
      if PyStr.is_digit c
      then if in_number then tokens true s' else Number :: tokens true s'
      else if Ascii.eqb c "." then Dot :: tokens false s'
      else if PyStr.is_space c then Space :: tokens false s'
      else [Other]
  end.

(** The rest does not go on with a digit. *)
Definition number_ends (rest : string) : Prop :=
  forall c, first_char rest = Some c -> PyStr.is_digit c = false.

(** More concrete inputs. *)
Module Inputs.

Definition cooking_scenario : RunLocal.scenario :=
  {| RunLocal.scenario_path := "input_data/cooking";
     RunLocal.pdf_files := ["input_data/cooking/a.pdf";
                            "input_data/cooking/b.pdf"];
     RunLocal.persona_txt := Some "Chef ";
     RunLocal.job_txt := None |}.

Definition empty_scenario : RunLocal.scenario :=
  {| RunLocal.scenario_path := "input_data/empty";
     RunLocal.pdf_files := [];
     RunLocal.persona_txt := Some "Chef";
     RunLocal.job_txt := None |}.

(** A sentence about learning pipelines. *)
Definition learning_sentence : Persona.span :=
  {| Persona.span_text := " We use learning pipelines. ";
     Persona.span_tokens :=
       [Scenario.cooking_token "use"; Scenario.cooking_token "learning";
        Scenario.cooking_token "pipeline"] |}.

(** A pipeline that makes that one sentence of any text. *)
Definition learning_nlp (t : string) : Persona.doc :=
  {| Persona.doc_tokens := []; Persona.sents := [learning_sentence] |}.

(** Three words of size 12, one of size 20 and one of size 13. *)
Definition sized_page : Pdf.page_obj :=
  let ws := [Scenario.mk_word "Big" 20 "Times-Bold" 10 10;
             Scenario.mk_word "a" 12 "Times" 10 30;
             Scenario.mk_word "b" 12 "Times" 20 30;
             Scenario.mk_word "c" 12 "Times" 30 30;
             Scenario.mk_word "d" 13 "Times" 10 50] in
  {| Pdf.chars := [Scenario.mk_char "B" 20 "Times-Bold";
                   Scenario.mk_char "a" 12 "Times"];
     Pdf.extract_words_y3 := ws; Pdf.extract_words_x2_y2 := ws;
     Pdf.extract_text_lines := [] |}.

Definition sized : Pdf.pdf := {| Pdf.pages := [sized_page] |}.

End Inputs.

(** * Properties *)

(** ** Empty documents *)

(** C10. A readable PDF without pages gives the title "Empty Document" and
    an empty outline in both extractors, and that title is neither of the
    two other sentinel titles. *)
Theorem empty_document_sentinel :
  forall doc : Pdf.pdf,
    Pdf.pages doc = [] ->
    Ext2.extract_outline_with_pdfplumber (Pdf.Opened doc)
      = {| title := "Empty Document"; outline := [] |}
    /\ Ext3.extract_outline_with_pdfplumber (Pdf.Opened doc)
      = {| title := "Empty Document"; outline := [] |}
    /\ "Empty Document" <> "Untitled Document"
    /\ "Empty Document" <> "Error Processing Document".
Proof.
  intros doc Hpages.
  unfold Ext2.extract_outline_with_pdfplumber,
    Ext3.extract_outline_with_pdfplumber.
  rewrite Hpages.
  repeat split; discriminate.
Qed.

Lemma empty_document_sentinel_witness :
  Ext2.extract_outline_with_pdfplumber (Pdf.Opened Scenario.no_pages)
    = {| title := "Empty Document"; outline := [] |}
  /\ Ext3.extract_outline_with_pdfplumber (Pdf.Opened Scenario.no_pages)
    = {| title := "Empty Document"; outline := [] |}
  /\ "Empty Document" <> "Untitled Document"
  /\ "Empty Document" <> "Error Processing Document".
Proof.
  apply (empty_document_sentinel Scenario.no_pages).
  reflexivity.
Defined.

(** ** The heading classifier *)

Lemma classify_accepted line_text font_size is_bold fs :
  Ext2.is_likely_heading line_text font_size is_bold fs
    (Z.of_nat (List.length (PyStr.split line_text))) = true ->
  Ext2.classify line_text font_size is_bold fs
  = Ext2.current_level line_text font_size is_bold fs.
Proof.
  intros H. unfold Ext2.classify. now rewrite H.
Qed.

(** C1. On a line that passes the eight rejection rules, a numbering
    pattern that matches decides the level, whatever the font size, the
    boldness and the case of the line; and "1.2.3 Background", not bold and
    smaller than the H1 threshold, is classified H3. *)
Theorem numbering_wins_over_style :
  (forall line_text font_size is_bold fs lvl,
      Ext2.is_likely_heading line_text font_size is_bold fs
        (Z.of_nat (List.length (PyStr.split line_text))) = true ->
      Ext2.numbered_level line_text = Some lvl ->
      Ext2.classify line_text font_size is_bold fs = Some lvl)
  /\ (forall font_size fs,
         (font_size < Ext2.h1_font_threshold fs)%Q ->
         Ext2.classify "1.2.3 Background" font_size false fs = Some "H3").
Proof.
  split.
  - intros line_text font_size is_bold fs lvl Hok Hnum.
    rewrite classify_accepted by exact Hok.
    unfold Ext2.current_level. now rewrite Hnum.
  - intros font_size fs _.
    vm_compute. reflexivity.
Qed.

Lemma numbering_wins_over_style_witness :
  Ext2.classify "2.1 Scope" 9 false Scenario.three_sizes = Some "H2"
  /\ Ext2.classify "1.2.3 Background" 10 false Scenario.three_sizes
     = Some "H3".
Proof.
  split.
  - apply (proj1 numbering_wins_over_style
             "2.1 Scope" 9%Q false Scenario.three_sizes "H2");
      vm_compute; reflexivity.
  - apply (proj2 numbering_wins_over_style 10%Q Scenario.three_sizes).
    vm_compute. reflexivity.
Defined.

(** ** The title *)


Lemma len_nonneg s : 0 <= PyStr.len s.
Proof. unfold PyStr.len. lia. Qed.

Lemma len_zero s : PyStr.len s = 0 <-> s = "".
Proof.
  unfold PyStr.len. destruct s; simpl; split; intros H;
    try reflexivity; try discriminate; lia.
Qed.







(** ** Deduplication of the outline *)

Section Dedup.

Let run (l : list entry) := fold_left dedup_step l ([], ∅).

Lemma run_snoc l e : run (l ++ [e]) = dedup_step (run l) e.
Proof. unfold run. now rewrite fold_left_app. Qed.

(** The set holds the pairs of all the entries read so far. *)
Lemma seen_all l k : k ∈ snd (run l) <-> In k (keys l).
Proof.
  induction l as [|e l IH] using rev_ind.
  - simpl. split; [set_solver | intros []].
  - rewrite run_snoc. unfold keys. rewrite List.map_app, in_app_iff.
    fold (keys l). rewrite <- IH.
    unfold dedup_step. destruct (run l) as [fin seen]. simpl.
    destruct (decide (entry_tuple e ∈ seen)); simpl.
    + split; [tauto | intros [H | [<- | []]]; assumption].
    + rewrite elem_of_union, elem_of_singleton.
      split; [intros [H | ->]; tauto | intros [H | [<- | []]]; tauto].
Qed.

(** They are also the pairs of the entries kept. *)
Lemma seen_kept l k : k ∈ snd (run l) <-> In k (keys (fst (run l))).
Proof.
  induction l as [|e l IH] using rev_ind.
  - simpl. split; [set_solver | intros []].
  - rewrite run_snoc. unfold dedup_step.
    destruct (run l) as [fin seen]. simpl in IH.
    destruct (decide (entry_tuple e ∈ seen)); simpl; [exact IH|].
    unfold keys. rewrite List.map_app, in_app_iff. fold (keys fin).
    rewrite elem_of_union, elem_of_singleton, <- IH. simpl.
    split; [intros [H | ->]; tauto | intros [H | [<- | []]]; tauto].
Qed.

Lemma final_snoc_dup l e :
  In (entry_tuple e) (keys l) ->
  final_outline_of (l ++ [e]) = final_outline_of l.
Proof.
  intros H. apply seen_all in H.
  unfold final_outline_of. fold (run (l ++ [e])) (run l).
  rewrite run_snoc. unfold dedup_step.
  destruct (run l) as [fin seen]. simpl in *.
  now destruct (decide (entry_tuple e ∈ seen)).
Qed.

Lemma final_snoc_new l e :
  ~ In (entry_tuple e) (keys l) ->
  final_outline_of (l ++ [e]) = (final_outline_of l ++ [e])%list.
Proof.
  intros H. rewrite <- seen_all in H.
  unfold final_outline_of. fold (run (l ++ [e])) (run l).
  rewrite run_snoc. unfold dedup_step.
  destruct (run l) as [fin seen]. simpl in *.
  now destruct (decide (entry_tuple e ∈ seen)).
Qed.

Lemma keys_dec (k : string * Z) (l : list entry) :
  {In k (keys l)} + {~ In k (keys l)}.
Proof. apply in_dec. intros x y. destruct (decide (x = y)); auto. Qed.

Lemma final_keys l k : In k (keys (final_outline_of l)) <-> In k (keys l).
Proof.
  unfold final_outline_of. fold (run l).
  now rewrite <- seen_kept, seen_all.
Qed.

Lemma final_nodup l : NoDup (keys (final_outline_of l)).
Proof.
  induction l as [|e l IH] using rev_ind.
  - constructor.
  - destruct (keys_dec (entry_tuple e) l) as [H|H].
    + now rewrite final_snoc_dup.
    + rewrite final_snoc_new by exact H.
      unfold keys. rewrite List.map_app. simpl.
      apply (proj2 (NoDup_app _ _)). split; [exact IH|]. split.
      * intros x Hx ->%list_elem_of_singleton.
        apply list_elem_of_In in Hx. apply H. now apply final_keys.
      * apply NoDup_singleton.
Qed.

Lemma final_sublist l : sublist (final_outline_of l) l.
Proof.
  induction l as [|e l IH] using rev_ind.
  - constructor.
  - destruct (keys_dec (entry_tuple e) l) as [H|H].
    + rewrite final_snoc_dup by exact H. now apply sublist_inserts_r.
    + rewrite final_snoc_new by exact H. now apply sublist_app.
Qed.



End Dedup.

Lemma ext2_outline o :
  outline (Ext2.extract_outline_with_pdfplumber o) = []
  \/ exists doc fs,
      outline (Ext2.extract_outline_with_pdfplumber o)
      = final_outline_of (Ext2.headings doc fs).
Proof.
  destruct o as [|[[|first_page rest]]]; simpl; eauto.
Qed.

Lemma ext3_outline o :
  outline (Ext3.extract_outline_with_pdfplumber o) = []
  \/ exists doc heading_sizes,
      outline (Ext3.extract_outline_with_pdfplumber o)
      = final_outline_of (Ext3.headings doc heading_sizes).
Proof.
  destruct o as [|[[|first_page rest]]]; simpl; eauto.
  destruct (Ext3.analyze_document_styles _) as [body_size heading_sizes].
  simpl. eauto.
Qed.



(** ** Sorting *)

Section SortFacts.
Context {A : Type} (leb : A -> A -> bool).
Hypothesis leb_total : forall a b, leb a b = true \/ leb b a = true.
Hypothesis leb_trans :
  forall a b c, leb a b = true -> leb b c = true -> leb a c = true.

Let le (a b : A) : Prop := leb a b = true.

Lemma insert_sorted_perm x l : Permutation (insert_sorted leb x l) (x :: l).
Proof using Type.
  induction l as [|y l IH]; simpl; [reflexivity|].
  destruct (leb x y); [reflexivity|].
  rewrite IH. apply perm_swap.
Qed.

Lemma sorted_perm l : Permutation (sorted leb l) l.
Proof using Type.
  induction l as [|x l IH]; simpl; [reflexivity|].
  now rewrite insert_sorted_perm, IH.
Qed.

Lemma insert_sorted_ordered x l :
  StronglySorted le l -> StronglySorted le (insert_sorted leb x l).
Proof using leb_total leb_trans.
  induction 1 as [|y l Hl IH Hy]; simpl.
  - repeat constructor.
  - destruct (leb x y) eqn:Hxy.
    + constructor; [now constructor|].
      constructor; [exact Hxy|].
      eapply Forall_impl; [exact Hy|].
      intros z Hz. exact (leb_trans _ _ _ Hxy Hz).
    + constructor; [exact IH|].
      assert (Hyx : le y x) by (destruct (leb_total x y); congruence).
      eapply Permutation_Forall; [symmetry; apply insert_sorted_perm|].
      now constructor.
Qed.

Lemma sorted_ordered l : StronglySorted le (sorted leb l).
Proof using leb_total leb_trans.
  induction l as [|x l IH]; simpl; [constructor|].
  now apply insert_sorted_ordered.
Qed.

(** Stability: elements that the order does not separate keep their
    relative positions. *)
Section Stable.
Variable p : A -> bool.
Hypothesis p_tied : forall x y, p x = true -> p y = true -> leb x y = true.





End Stable.

Lemma ordered_snoc (R : A -> A -> Prop) l x :
  StronglySorted R l -> Forall (fun y => R y x) l ->
  StronglySorted R (l ++ [x]).
Proof using Type.
  induction 1 as [|y l Hl IH Hy]; intros Hx; simpl.
  - repeat constructor.
  - inversion Hx; subst. constructor; [now apply IH|].
    apply Forall_app. split; [exact Hy | now repeat constructor].
Qed.

Lemma ordered_rev (R : A -> A -> Prop) l :
  StronglySorted R l -> StronglySorted (fun a b => R b a) (List.rev l).
Proof using Type.
  induction 1 as [|y l Hl IH Hy]; simpl; [constructor|].
  apply ordered_snoc; [exact IH|].
  apply Forall_forall. intros z Hz.
  apply list_elem_of_In, in_rev, list_elem_of_In in Hz.
  rewrite Forall_forall in Hy. now apply Hy.
Qed.

Lemma sorted_reverse_perm l : Permutation (sorted_reverse leb l) l.
Proof using Type.
  unfold sorted_reverse.
  now rewrite <- Permutation_rev, sorted_perm, <- Permutation_rev.
Qed.

Lemma sorted_reverse_ordered l :
  StronglySorted (fun a b => le b a) (sorted_reverse leb l).
Proof using leb_total leb_trans.
  unfold sorted_reverse. apply ordered_rev, sorted_ordered.
Qed.

End SortFacts.

(** ** Ranking *)











(** ** Refinement *)



Section Loop.
Variable nlp : string -> Persona.doc.
Variable query_keywords : list string.

Local Abbreviation loop := (Persona.sub_section_loop nlp query_keywords).

Lemma loop_cons i s rest acc :
  loop i (s :: rest) acc
  = if Nat.leb Persona.top_n_sections_for_sub_analysis i then acc
    else if PyStr.is_empty (Persona.full_text_content s)
    then loop (S i) rest acc
    else
      match Persona.relevant_sentences query_keywords
              (Persona.sents (nlp (Persona.full_text_content s))) [] with
      | [] => loop (S i) rest acc
      | relevant =>
          loop (S i) rest
            (acc ++ [{| Persona.r_document := Persona.document s;
                        Persona.r_page_number := Persona.page_number s;
                        Persona.refined_text := PyStr.join " " relevant |}])
      end.
Proof using Type.
  simpl. destruct (Persona.relevant_sentences _ _ _); reflexivity.
Qed.

Lemma loop_break i ranked acc :
  (Persona.top_n_sections_for_sub_analysis <= i)%nat ->
  loop i ranked acc = acc.
Proof using Type.
  intros H. destruct ranked; [reflexivity|]. rewrite loop_cons.
  destruct (Nat.leb_spec Persona.top_n_sections_for_sub_analysis i);
    [reflexivity | lia].
Qed.

Lemma loop_acc ranked :
  forall i acc, loop i ranked acc = (acc ++ loop i ranked [])%list.
Proof using Type.
  induction ranked as [|s rest IH]; intros i acc.
  - simpl. now rewrite app_nil_r.
  - rewrite !loop_cons.
    destruct (Nat.leb _ i); [now rewrite app_nil_r|].
    destruct (PyStr.is_empty _); [apply IH|].
    destruct (Persona.relevant_sentences _ _ _); [apply IH|].
    rewrite IH, (IH _ ([] ++ _)%list). simpl. now rewrite <- app_assoc.
Qed.



End Loop.



(** ** Section text *)

Lemma try_block_unbound pdfplumber_open pdf_path page_number section_title
    next_section_page_number next_section_title :
  Persona.try_block Persona.module_globals pdfplumber_open pdf_path
    page_number section_title next_section_page_number next_section_title
  = (None, []).
Proof. reflexivity. Qed.

Lemma section_text_raises pdfplumber_open pdf_path page_number section_title
    next_section_page_number next_section_title :
  Persona.get_text_content_for_section Persona.module_globals pdfplumber_open
    pdf_path page_number section_title next_section_page_number
    next_section_title
  = Persona.Raised (Persona.NameError "re").
Proof. reflexivity. Qed.

Lemma extract_sections_raises pdfplumber_open b bs acc :
  Persona.extract_sections Persona.module_globals pdfplumber_open (b :: bs) acc
  = Persona.Raised (Persona.NameError "re").
Proof. reflexivity. Qed.

Lemma all_extracted_sections_raises pdfplumber_open extract paths :
  forall acc,
    Exists (fun path => outline (extract path) <> []) paths ->
    Persona.all_extracted_sections Persona.module_globals pdfplumber_open
      extract paths acc
    = Persona.Raised (Persona.NameError "re").
Proof.
  induction paths as [|path paths IH]; intros acc H.
  - inversion H.
  - simpl. destruct (outline (extract path)) as [|e es] eqn:E.
    + simpl. apply IH. inversion H; subst; [congruence | assumption].
    + reflexivity.
Qed.

(** With both names bound, a title that no line contains gives the empty
    text. *)
Lemma line_step_not_found idx section_title np nt lines :
  forall parts,
    (forall line, In line lines ->
       PyStr.contains section_title (PyStr.strip (Pdf.l_text line)) = false) ->
    fold_left (Persona.line_step idx section_title np nt) lines
      {| Persona.found_title := false; Persona.stopped := false;
         Persona.text_content_parts := parts |}
    = {| Persona.found_title := false; Persona.stopped := false;
         Persona.text_content_parts := parts |}.
Proof.
  induction lines as [|line lines IH]; intros parts H; [reflexivity|].
  simpl. unfold Persona.line_step at 2. simpl.
  rewrite (H line) by now left.
  apply IH. intros l Hl. apply H. now right.
Qed.

Lemma index_in {A} (l : list A) i x : Persona.index l i = Some x -> In x l.
Proof.
  unfold Persona.index.
  destruct (_ && _)%bool; [apply nth_error_In|].
  destruct (_ && _)%bool; [apply nth_error_In | discriminate].
Qed.

Lemma page_loop_not_found doc section_title np nt idxs :
  forall parts,
    (forall page line,
        In page (Pdf.pages doc) -> In line (Pdf.extract_text_lines page) ->
        PyStr.contains section_title (PyStr.strip (Pdf.l_text line)) = false) ->
    Persona.page_loop doc section_title np nt idxs parts = parts.
Proof.
  induction idxs as [|idx idxs IH]; intros parts H; simpl; [reflexivity|].
  destruct (Persona.index (Pdf.pages doc) idx) as [page|] eqn:E;
    [|reflexivity].
  rewrite line_step_not_found
    by (intros line Hl; eapply H; [eapply index_in, E | exact Hl]).
  simpl. destruct (_ && _)%bool; [reflexivity | now apply IH].
Qed.

Lemma missing_anchor_empty_when_repaired
    globals pdfplumber_open pdf_path page_number section_title np nt :
  Persona.bound globals "pdfplumber" = true ->
  Persona.bound globals "re" = true ->
  (forall doc page line,
      pdfplumber_open pdf_path = Pdf.Opened doc ->
      In page (Pdf.pages doc) -> In line (Pdf.extract_text_lines page) ->
      PyStr.contains section_title (PyStr.strip (Pdf.l_text line)) = false) ->
  Persona.get_text_content_for_section globals pdfplumber_open pdf_path
    page_number section_title np nt = Persona.Ok "".
Proof.
  intros Hp Hre H.
  unfold Persona.get_text_content_for_section, Persona.try_block.
  rewrite Hp. simpl negb. cbv iota.
  destruct (pdfplumber_open pdf_path) as [|doc] eqn:E.
  - now rewrite Hre.
  - destruct (page_number >? _); [reflexivity|].
    rewrite page_loop_not_found by (intros page line; now apply (H doc)).
    now rewrite Hre.
Qed.

(** C4, on the code.  [persona_analyst.py] imports neither [pdfplumber]
    nor [re].  The name [pdfplumber] is looked up inside the [try] block, so
    that failure is caught; the name [re] is looked up after it, so every
    call of [get_text_content_for_section] ends in a [NameError], and the
    analysis of any collection in which a document has an outline that is
    not empty ends in that error. *)
Theorem section_text_extraction_raises :
  (forall pdfplumber_open pdf_path page_number section_title
          next_section_page_number next_section_title,
      Persona.get_text_content_for_section Persona.module_globals
        pdfplumber_open pdf_path page_number section_title
        next_section_page_number next_section_title
      = Persona.Raised (Persona.NameError "re"))
  /\ (forall pdfplumber_open extract nlp tfidf_cosine now paths persona job,
         Exists (fun path => outline (extract path) <> []) paths ->
         Persona.analyze_document_collection Persona.module_globals
           pdfplumber_open extract nlp tfidf_cosine now paths persona job
         = Persona.Raised (Persona.NameError "re")).
Proof.
  split.
  - intros. apply section_text_raises.
  - intros pdfplumber_open extract nlp tfidf_cosine now paths persona job H.
    unfold Persona.analyze_document_collection.
    now rewrite all_extracted_sections_raises.
Qed.

Lemma section_text_extraction_raises_witness :
  Persona.analyze_document_collection Persona.module_globals
    Scenario.open_file Scenario.extract Scenario.cooking_nlp
    Scenario.tied_scores "2026-01-01T00:00:00" ["input/report.pdf"]
    "analyst" "review"
  = Persona.Raised (Persona.NameError "re").
Proof.
  apply (proj2 section_text_extraction_raises).
  constructor. vm_compute. discriminate.
Defined.

(** ** The matcher decides the language of the pattern *)

Lemma append_nil_l (s : string) : "" ++ s = s.
Proof. reflexivity. Qed.

Lemma append_cons c (s1 s2 : string) : String c s1 ++ s2 = String c (s1 ++ s2).
Proof. reflexivity. Qed.

Lemma lang_void s : ~ lang Re.Void s.
Proof. intros H. inversion H. Qed.

Lemma nullable_lang r : Re.nullable r = true -> lang r "".
Proof.
  induction r; simpl; intros H; try discriminate.
  - constructor.
  - apply andb_true_iff in H as [H1 H2].
    apply (lang_cat r1 r2 "" ""); auto.
  - apply orb_true_iff in H as [H|H];
      [apply lang_alt_l | apply lang_alt_r]; auto.
  - constructor.
Qed.

Lemma lang_nullable r s : lang r s -> s = "" -> Re.nullable r = true.
Proof.
  induction 1; simpl; intros E; try reflexivity; try discriminate.
  - destruct s1; [|discriminate]. rewrite append_nil_l in E.
    now rewrite IHlang1, IHlang2.
  - now rewrite IHlang.
  - rewrite IHlang by assumption. apply orb_true_r.
Qed.

Lemma cat_lang r1 r2 s : lang (Re.cat r1 r2) s <-> lang (Re.Cat r1 r2) s.
Proof.
  split; intros H.
  - destruct r1, r2; simpl in H; try exact H; now apply lang_void in H.
  - destruct r1, r2; simpl; try exact H; inversion H; subst;
      match goal with X : lang Re.Void _ |- _ => now apply lang_void in X end.
Qed.

Lemma alt_lang r1 r2 s : lang (Re.alt r1 r2) s <-> lang (Re.Alt r1 r2) s.
Proof.
  split; intros H.
  - destruct r1, r2; simpl in H; try exact H;
      try (now apply lang_alt_l); try (now apply lang_alt_r).
  - destruct r1, r2; simpl; try exact H; inversion H; subst; try assumption;
      match goal with X : lang Re.Void _ |- _ => now apply lang_void in X end.
Qed.

Lemma deriv_lang r : forall c s, lang (Re.deriv c r) s -> lang r (String c s).
Proof.
  induction r; intros c s H; simpl in H.
  - now apply lang_void in H.
  - now apply lang_void in H.
  - destruct (p c) eqn:E; [|now apply lang_void in H].
    inversion H; subst. now constructor.
  - assert (Hleft : lang (Re.Cat (Re.deriv c r1) r2) s ->
                    lang (Re.Cat r1 r2) (String c s)).
    { intros H'. inversion H'; subst.
      apply (lang_cat r1 r2 (String c s1) s2); auto. }
    destruct (Re.nullable r1) eqn:E.
    + apply alt_lang in H. inversion H; subst.
      * apply Hleft. now apply cat_lang.
      * apply (lang_cat r1 r2 "" (String c s));
          [now apply nullable_lang | auto].
    + apply Hleft. now apply cat_lang.
  - apply alt_lang in H. inversion H; subst;
      [apply lang_alt_l | apply lang_alt_r]; auto.
  - apply cat_lang in H. inversion H; subst.
    apply (lang_star_cons r (String c s1) s2); auto.
Qed.

Lemma lang_deriv r s0 :
  lang r s0 -> forall c s, s0 = String c s -> lang (Re.deriv c r) s.
Proof.
  induction 1; intros a t E; simpl; try discriminate.
  - injection E as <- <-. rewrite H. constructor.
  - destruct s1 as [|b s1].
    + rewrite append_nil_l in E. subst s2.
      rewrite (lang_nullable r1 "" H eq_refl).
      apply alt_lang, lang_alt_r. now apply IHlang2.
    + rewrite append_cons in E. injection E as -> <-.
      assert (Hleft : lang (Re.cat (Re.deriv a r1) r2) (s1 ++ s2)).
      { apply cat_lang. constructor; [now apply IHlang1 | assumption]. }
      destruct (Re.nullable r1); [apply alt_lang, lang_alt_l|]; exact Hleft.
  - apply alt_lang, lang_alt_l. now apply IHlang.
  - apply alt_lang, lang_alt_r. now apply IHlang.
  - destruct s1 as [|b s1].
    + rewrite append_nil_l in E. now apply IHlang2.
    + rewrite append_cons in E. injection E as -> <-.
      apply cat_lang. constructor; [now apply IHlang1 | assumption].
Qed.

Lemma matches_lang s : forall r, Re.matches r s = true <-> lang r s.
Proof.
  induction s as [|c s IH]; intros r; simpl.
  - split; [apply nullable_lang | intros H; now apply (lang_nullable r "")].
  - rewrite IH. split; [apply deriv_lang | intros H].
    now apply (lang_deriv r (String c s)).
Qed.

Lemma some_suffix_split f s :
  Re.some_suffix f s = true -> exists pre t, s = pre ++ t /\ f t = true.
Proof.
  induction s as [|c s IH]; simpl; intros H.
  - rewrite orb_false_r in H. now exists "", "".
  - apply orb_true_iff in H as [H|H].
    + now exists "", (String c s).
    + destruct (IH H) as (pre & t & -> & Ht).
      now exists (String c pre), t.
Qed.

(** ** Cleaned text has no doubled character *)

Lemma groupby_keys_cons c d s :
  groupby_keys (String c (String d s))
  = if Ascii.eqb c d then groupby_keys (String d s)
    else String c (groupby_keys (String d s)).
Proof. reflexivity. Qed.

Lemma groupby_keys_first c s : first_char (groupby_keys (String c s)) = Some c.
Proof.
  revert c. induction s as [|d s IH]; intros c; [reflexivity|].
  rewrite groupby_keys_cons.
  destruct (Ascii.eqb_spec c d) as [->|]; [apply IH | reflexivity].
Qed.

Lemma no_doubled_cons c s :
  first_char s <> Some c -> no_doubled s = true ->
  no_doubled (String c s) = true.
Proof.
  destruct s as [|d s]; [reflexivity|]. simpl. intros H ->.
  destruct (Ascii.eqb_spec c d) as [->|]; [now destruct H | reflexivity].
Qed.

Lemma no_doubled_tail c s : no_doubled (String c s) = true -> no_doubled s = true.
Proof.
  destruct s as [|d s]; [reflexivity|]. simpl.
  intros H. now apply andb_true_iff in H as [_ H].
Qed.

Lemma no_doubled_head c s :
  no_doubled (String c s) = true -> first_char s <> Some c.
Proof.
  destruct s as [|d s]; [discriminate|]. simpl.
  intros H E. injection E as ->. rewrite Ascii.eqb_refl in H. discriminate.
Qed.

Lemma groupby_keys_no_doubled s : no_doubled (groupby_keys s) = true.
Proof.
  induction s as [|c s IH]; [reflexivity|].
  destruct s as [|d s]; [reflexivity|].
  rewrite groupby_keys_cons.
  destruct (Ascii.eqb_spec c d) as [->|Hcd]; [exact IH|].
  apply no_doubled_cons; [|exact IH].
  rewrite groupby_keys_first. congruence.
Qed.

(** What [re.sub] leaves at the front: a space only when no white space
    was just replaced, and otherwise the first character of the input. *)
Lemma sub_ws_first in_ws s h :
  first_char (sub_ws_aux in_ws s) = Some h ->
  (PyStr.is_space h = true /\ in_ws = false)
  \/ (PyStr.is_space h = false
      /\ (in_ws = false -> first_char s = Some h)).
Proof.
  revert in_ws. induction s as [|c s IH]; intros in_ws; simpl;
    [discriminate|].
  destruct (PyStr.is_space c) eqn:Ec.
  - destruct in_ws.
    + intros H. destruct (IH true H) as [[_ E]|[Hh _]]; [discriminate|].
      right. split; [exact Hh | discriminate].
    + simpl. intros E. injection E as <-. now left.
  - simpl. intros E. injection E as <-. right. now split.
Qed.

Lemma space_is_space : PyStr.is_space " " = true.
Proof. reflexivity. Qed.

Lemma sub_ws_no_doubled s :
  forall in_ws,
    no_doubled s = true -> no_doubled (sub_ws_aux in_ws s) = true.
Proof.
  induction s as [|c s IH]; intros in_ws H; [reflexivity|].
  pose proof (no_doubled_tail _ _ H) as Ht.
  simpl. destruct (PyStr.is_space c) eqn:Ec.
  - destruct in_ws; [now apply IH|].
    apply no_doubled_cons; [|now apply IH].
    intros E. apply sub_ws_first in E as [[_ E]|[E _]];
      [discriminate | now rewrite space_is_space in E].
  - apply no_doubled_cons; [|now apply IH].
    intros E. apply sub_ws_first in E as [[E _]|[_ E]]; [congruence|].
    now apply (no_doubled_head _ _ H), E.
Qed.

Lemma lstrip_no_doubled s : no_doubled s = true -> no_doubled (PyStr.lstrip s) = true.
Proof.
  induction s as [|c s IH]; intros H; [reflexivity|].
  simpl. destruct (PyStr.is_space c); [|exact H].
  apply IH. now apply no_doubled_tail in H.
Qed.

Lemma rstrip_first s h :
  first_char (PyStr.rstrip s) = Some h -> first_char s = Some h.
Proof.
  destruct s as [|c s]; [discriminate|]. simpl.
  destruct (_ && _)%bool; [discriminate | trivial].
Qed.

Lemma rstrip_no_doubled s : no_doubled s = true -> no_doubled (PyStr.rstrip s) = true.
Proof.
  induction s as [|c s IH]; intros H; [reflexivity|].
  simpl. destruct (_ && _)%bool; [reflexivity|].
  apply no_doubled_cons; [|apply IH; now apply no_doubled_tail in H].
  intros E. apply rstrip_first in E. now apply (no_doubled_head _ _ H).
Qed.

Lemma clean_text_no_doubled raw : no_doubled (clean_text raw) = true.
Proof.
  unfold clean_text, PyStr.strip, sub_ws.
  apply rstrip_no_doubled, lstrip_no_doubled, sub_ws_no_doubled,
    groupby_keys_no_doubled.
Qed.

Lemma no_doubled_suffix pre t :
  no_doubled (pre ++ t) = true -> no_doubled t = true.
Proof.
  induction pre as [|c pre IH]; intros H; [exact H|].
  apply IH. now apply (no_doubled_tail c).
Qed.

(** A row of two or more dots starts with two dots. *)
Lemma lang_chr c s : lang (Re.chr c) s -> s = String c "".
Proof.
  intros H. inversion H; subst.
  match goal with X : _ = true |- _ => apply Ascii.eqb_eq in X; now subst end.
Qed.

Lemma lang_dots n r s :
  lang (Re.Cat (Re.at_least (S (S n)) Re.dot) r) s ->
  exists t, s = String "." (String "." t).
Proof.
  intros H. inversion H as [| |? ? s1 s2 H1 H2| | | |]; subst. clear H.
  simpl in H1.
  inversion H1 as [| |? ? a b Ha Hb| | | |]; subst. clear H1.
  apply lang_chr in Ha. subst a.
  inversion Hb as [| |? ? a' b' Ha' Hb'| | | |]; subst. clear Hb.
  apply lang_chr in Ha'. subst a'.
  simpl. eauto.
Qed.

Lemma dotted_not_clean n r s :
  no_doubled s = true ->
  Re.search_end (Re.Cat (Re.at_least (S (S n)) Re.dot) r) s = false.
Proof.
  intros Hs. destruct (Re.search_end _ s) eqn:E; [|reflexivity].
  apply some_suffix_split in E as (pre & t & -> & Ht).
  apply matches_lang in Ht. unfold Re.at_end in Ht.
  inversion Ht as [| |? ? s1 s2 H1 H2| | | |]; subst.
  apply lang_dots in H1 as [t' ->].
  apply no_doubled_suffix in Hs. simpl in Hs. discriminate.
Qed.

(** ** Table-of-contents rows *)

(** C3, on the code.  Called on a text that ends in four or more dots and
    a page number, [is_likely_heading] answers [False].  The extractor,
    however, cleans every line first, and cleaning collapses the dots to
    one: no cleaned line matches the pattern of Rule 2 (nor that of Rule 3
    of [ext3.py]), and the row "Introduction ..... 5", in a bold font of the
    largest size, enters the outline as an H1 heading. *)
Theorem toc_row_not_rejected :
  (forall line_text font_size is_bold fs line_word_count,
      Re.search_end Ext2.toc_entry line_text = true ->
      Ext2.is_likely_heading line_text font_size is_bold fs line_word_count
      = false)
  /\ (forall raw,
         Re.search_end Ext2.toc_entry (clean_text raw) = false
         /\ Re.search_end Ext3.toc_entry (clean_text raw) = false)
  /\ Re.search_end Ext2.toc_entry (Pdf.l_text Scenario.toc_line) = true
  /\ outline (Ext2.extract_outline_with_pdfplumber
                (Pdf.Opened Scenario.toc_document))
     = [{| level := "H1"; text := "Introduction . 5"; page := 1 |}].
Proof.
  split; [|split; [|split]].
  - intros line_text font_size is_bold fs n H.
    unfold Ext2.is_likely_heading. rewrite H.
    now destruct (_ || _)%bool.
  - intros raw. split;
      apply dotted_not_clean, clean_text_no_doubled.
  - vm_compute. reflexivity.
  - vm_compute. reflexivity.
Qed.

Lemma toc_row_not_rejected_witness :
  Ext2.is_likely_heading "....... 42" 14 true Scenario.three_sizes 2 = false.
Proof.
  apply (proj1 toc_row_not_rejected).
  vm_compute. reflexivity.
Defined.

(** ** Rows of the title *)

Section DefaultDictFacts.
Context {K V : Type} (eqb : K -> K -> bool).
Hypothesis eqb_eq : forall a b, eqb a b = true <-> a = b.

Lemma eqb_refl_true a : eqb a a = true.
Proof using eqb_eq. now apply eqb_eq. Qed.

Lemma dd_get_update k k' (f : V -> V) dflt d :
  dd_get eqb k dflt (dd_update eqb k' f dflt d)
  = if eqb k k' then f (dd_get eqb k dflt d) else dd_get eqb k dflt d.
Proof using eqb_eq.
  induction d as [|[k0 v] d IH]; simpl; [reflexivity|].
  destruct (eqb k' k0) eqn:E0; simpl.
  - apply eqb_eq in E0. subst k0. now destruct (eqb k k').
  - rewrite IH. destruct (eqb k k0) eqn:E1; [|reflexivity].
    apply eqb_eq in E1. subst k0.
    destruct (eqb k k') eqn:E2; [|reflexivity].
    apply eqb_eq in E2. subst k'. rewrite eqb_refl_true in E0. discriminate.
Qed.

Lemma dd_keys_update k k' (f : V -> V) dflt d :
  In k (dd_keys (dd_update eqb k' f dflt d)) <-> k = k' \/ In k (dd_keys d).
Proof using eqb_eq.
  unfold dd_keys. induction d as [|[k0 v] d IH]; simpl.
  - split; [intros [<-|[]]; now left | intros [->|[]]; now left].
  - destruct (eqb k' k0) eqn:E0; simpl.
    + apply eqb_eq in E0. subst k0.
      split; [tauto | intros [->|H]; tauto].
    + rewrite IH. split; [intros [H|[H|H]] | intros [H|[H|H]]]; auto.
Qed.

Lemma dd_keys_update_nodup k' (f : V -> V) dflt d :
  NoDup (dd_keys d) -> NoDup (dd_keys (dd_update eqb k' f dflt d)).
Proof using eqb_eq.
  unfold dd_keys. induction d as [|[k0 v] d IH]; simpl; intros H.
  - apply NoDup_singleton.
  - apply NoDup_cons in H as [Hk0 Hd].
    destruct (eqb k' k0) eqn:E0; simpl.
    + apply NoDup_cons. now split.
    + apply NoDup_cons. split; [|now apply IH].
      intros Hin. apply list_elem_of_In, dd_keys_update in Hin as [->|Hin].
      * rewrite eqb_refl_true in E0. discriminate.
      * now apply Hk0, list_elem_of_In.
Qed.

End DefaultDictFacts.

Lemma Zeqb_eq a b : Z.eqb a b = true <-> a = b.
Proof. apply Z.eqb_eq. Qed.

Section TitleRows.
Variable max_font_size : Q.

Local Abbreviation step :=
  (fun lines word =>
     if PyNum.ltb (PyNum.abs (Pdf.get0 (Pdf.w_size word) - max_font_size))
                  (1 # 10)
     then let y0 := PyNum.round (Pdf.get0 (Pdf.w_y0 word)) in
          dd_update Z.eqb y0 (fun l => (l ++ [Pdf.w_text word])%list) [] lines
     else lines).




End TitleRows.

Lemma Zleb_total a b : Z.leb a b = true \/ Z.leb b a = true.
Proof. rewrite !Z.leb_le. lia. Qed.

Lemma Zleb_trans a b c :
  Z.leb a b = true -> Z.leb b c = true -> Z.leb a c = true.
Proof. rewrite !Z.leb_le. lia. Qed.







(** * Further properties of the code *)

(** ** Cleaned text is in normal form *)

Lemma lstrip_starts s c :
  first_char (PyStr.lstrip s) = Some c -> PyStr.is_space c = false.
Proof.
  induction s as [|d s IH]; simpl; [discriminate|].
  destruct (PyStr.is_space d) eqn:E; [exact IH|].
  simpl. intros H. injection H as <-. exact E.
Qed.

Lemma lstrip_fixed s :
  (forall c, first_char s = Some c -> PyStr.is_space c = false) ->
  PyStr.lstrip s = s.
Proof.
  destruct s as [|d s]; [reflexivity|]. simpl. intros H.
  now rewrite (H d eq_refl).
Qed.

Lemma rstrip_cons c s :
  PyStr.rstrip (String c s)
  = if (PyStr.is_empty (PyStr.rstrip s) && PyStr.is_space c)%bool
    then "" else String c (PyStr.rstrip s).
Proof. reflexivity. Qed.

Lemma rstrip_rstrip s : PyStr.rstrip (PyStr.rstrip s) = PyStr.rstrip s.
Proof.
  induction s as [|c s IH]; [reflexivity|].
  rewrite rstrip_cons.
  destruct (_ && _)%bool eqn:E; [reflexivity|].
  rewrite rstrip_cons, IH, E. reflexivity.
Qed.

Lemma strip_strip s : PyStr.strip (PyStr.strip s) = PyStr.strip s.
Proof.
  unfold PyStr.strip.
  rewrite (lstrip_fixed (PyStr.rstrip (PyStr.lstrip s))).
  - apply rstrip_rstrip.
  - intros c H. apply rstrip_first in H. now apply lstrip_starts in H.
Qed.

Lemma rstrip_ends s c :
  last_char (PyStr.rstrip s) = Some c -> PyStr.is_space c = false.
Proof.
  induction s as [|d s IH]; [discriminate|].
  rewrite rstrip_cons.
  destruct (PyStr.rstrip s) as [|e r] eqn:Er.
  - simpl. destruct (PyStr.is_space d) eqn:Ed; simpl; [discriminate|].
    intros H. injection H as <-. exact Ed.
  - simpl. exact IH.
Qed.

Lemma forallb_lstrip p s :
  PyStr.forallb_str p s = true -> PyStr.forallb_str p (PyStr.lstrip s) = true.
Proof.
  induction s as [|c s IH]; [reflexivity|]. simpl. intros H.
  apply andb_true_iff in H as [Hc Hs].
  destruct (PyStr.is_space c); [now apply IH|].
  simpl. now rewrite Hc, Hs.
Qed.

Lemma forallb_rstrip p s :
  PyStr.forallb_str p s = true -> PyStr.forallb_str p (PyStr.rstrip s) = true.
Proof.
  induction s as [|c s IH]; [reflexivity|]. rewrite rstrip_cons.
  simpl. intros H. apply andb_true_iff in H as [Hc Hs].
  destruct (_ && _)%bool; [reflexivity|].
  simpl. now rewrite Hc, IH.
Qed.

Lemma sub_ws_plain s :
  forall in_ws, only_plain_spaces (sub_ws_aux in_ws s) = true.
Proof.
  unfold only_plain_spaces.
  induction s as [|c s IH]; intros in_ws; [reflexivity|]. simpl.
  destruct (PyStr.is_space c) eqn:E.
  - destruct in_ws; [apply IH|]. simpl. rewrite IH. reflexivity.
  - simpl. now rewrite E, IH.
Qed.

Lemma groupby_keys_fixed s : no_doubled s = true -> groupby_keys s = s.
Proof.
  induction s as [|c s IH]; [reflexivity|].
  destruct s as [|d s]; [reflexivity|].
  intros H. rewrite groupby_keys_cons.
  pose proof (no_doubled_head _ _ H) as Hh.
  destruct (Ascii.eqb_spec c d) as [->|_]; [now destruct Hh|].
  rewrite IH; [reflexivity | now apply no_doubled_tail in H].
Qed.

Lemma sub_ws_fixed s :
  forall in_ws,
    only_plain_spaces s = true -> no_doubled s = true ->
    (in_ws = true ->
     forall c, first_char s = Some c -> PyStr.is_space c = false) ->
    sub_ws_aux in_ws s = s.
Proof.
  induction s as [|c s IH]; intros in_ws Hp Hd Hw; [reflexivity|].
  unfold only_plain_spaces in Hp. simpl in Hp.
  apply andb_true_iff in Hp as [Hc Hp].
  pose proof (no_doubled_tail _ _ Hd) as Hd'.
  pose proof (no_doubled_head _ _ Hd) as Hh.
  simpl. destruct (PyStr.is_space c) eqn:E.
  - simpl in Hc. apply Ascii.eqb_eq in Hc. subst c.
    destruct in_ws; [now rewrite (Hw eq_refl " "%char eq_refl) in E|].
    rewrite IH; try assumption; [reflexivity|].
    intros _ d Hfirst. destruct (PyStr.is_space d) eqn:Ed; [|reflexivity].
    destruct s as [|d' s]; [discriminate|]. injection Hfirst as ->.
    simpl in Hp. apply andb_true_iff in Hp as [Hd0 _].
    rewrite Ed in Hd0. simpl in Hd0. apply Ascii.eqb_eq in Hd0. subst d.
    now destruct Hh.
  - rewrite IH; try assumption; [reflexivity | discriminate].
Qed.

(** [clean_text] gives a normal form: no character twice in a row, no
    white space other than single plain spaces, none at either end. *)
Theorem clean_text_normal_form :
  forall raw,
    let cleaned := clean_text raw in
    no_doubled cleaned = true
    /\ only_plain_spaces cleaned = true
    /\ (forall c, first_char cleaned = Some c -> PyStr.is_space c = false)
    /\ (forall c, last_char cleaned = Some c -> PyStr.is_space c = false).
Proof.
  intros raw cleaned. split; [apply clean_text_no_doubled|].
  unfold cleaned, clean_text, PyStr.strip, sub_ws.
  split; [|split].
  - apply forallb_rstrip, forallb_lstrip, sub_ws_plain.
  - intros c H. apply rstrip_first in H. now apply lstrip_starts in H.
  - apply rstrip_ends.
Qed.

(** Cleaning a cleaned text changes nothing. *)
Theorem clean_text_idempotent :
  forall raw, clean_text (clean_text raw) = clean_text raw.
Proof.
  intros raw.
  destruct (clean_text_normal_form raw) as (Hd & Hp & Hfirst & _).
  unfold clean_text at 1.
  rewrite (groupby_keys_fixed _ Hd).
  unfold sub_ws. rewrite (sub_ws_fixed _ false Hp Hd) by discriminate.
  unfold clean_text. apply strip_strip.
Qed.

(** ** Deduplication composes *)

Lemma final_fixed l : NoDup (keys l) -> final_outline_of l = l.
Proof.
  induction l as [|e l IH] using rev_ind; intros H; [reflexivity|].
  unfold keys in H. rewrite List.map_app in H.
  apply NoDup_app in H as (Hl & Hnot & _).
  rewrite final_snoc_new.
  - now rewrite IH.
  - intros Hin. apply list_elem_of_In in Hin.
    apply (Hnot _ Hin). simpl. left.
Qed.

(** An outline without repeated pairs passes through deduplication
    unchanged; so deduplicating twice is deduplicating once, and the
    outline an extractor returns is a fixed point. *)
Theorem deduplication_idempotent :
  (forall collected,
      NoDup (keys collected) -> final_outline_of collected = collected)
  /\ (forall collected,
         final_outline_of (final_outline_of collected)
         = final_outline_of collected)
  /\ (forall o,
         final_outline_of (outline (Ext2.extract_outline_with_pdfplumber o))
         = outline (Ext2.extract_outline_with_pdfplumber o)
         /\ final_outline_of
              (outline (Ext3.extract_outline_with_pdfplumber o))
            = outline (Ext3.extract_outline_with_pdfplumber o)).
Proof.
  split; [exact final_fixed|]. split.
  - intros collected. apply final_fixed, final_nodup.
  - intros o. split.
    + destruct (ext2_outline o) as [-> | (doc & fs & ->)];
        [reflexivity | apply final_fixed, final_nodup].
    + destruct (ext3_outline o) as [-> | (doc & hs & ->)];
        [reflexivity | apply final_fixed, final_nodup].
Qed.

Lemma deduplication_idempotent_witness :
  final_outline_of
    [{| level := "H1"; text := "Overview"; page := 1 |};
     {| level := "H1"; text := "Overview"; page := 2 |}]
  = [{| level := "H1"; text := "Overview"; page := 1 |};
     {| level := "H1"; text := "Overview"; page := 2 |}].
Proof.
  apply (proj1 deduplication_idempotent).
  apply NoDup_ListNoDup. vm_compute.
  repeat constructor; simpl; intros H;
    repeat (destruct H as [H|H]; try discriminate); exact H.
Defined.

(** ** The collected outline, line by line *)

Lemma fold_appending {A} (step : list entry -> A -> list entry) :
  (forall o a, step o a = (o ++ step [] a)%list) ->
  forall l o, fold_left step l o = (o ++ List.flat_map (step []) l)%list.
Proof.
  intros Hstep. induction l as [|a l IH]; intros o; simpl.
  - now rewrite app_nil_r.
  - rewrite IH, (Hstep o a), <- app_assoc. reflexivity.
Qed.

Lemma fold_left_pointwise {A B} (f g : B -> A -> B) :
  (forall o a, f o a = g o a) ->
  forall l o, fold_left f l o = fold_left g l o.
Proof.
  intros H. induction l as [|a l IH]; intros o; simpl; [reflexivity|].
  now rewrite H, IH.
Qed.

Lemma ext2_line_step_app fs n o line :
  Ext2.line_step fs n o line = (o ++ Ext2.line_step fs n [] line)%list.
Proof.
  unfold Ext2.line_step.
  destruct (List.find _ _); [|now rewrite app_nil_r].
  destruct (Ext2.classify _ _ _ _); [reflexivity | now rewrite app_nil_r].
Qed.

Lemma ext2_headings_flat doc fs :
  Ext2.headings doc fs
  = List.flat_map
      (fun np => List.flat_map (Ext2.line_step fs (fst np) [])
                               (Pdf.extract_text_lines (snd np)))
      (Pdf.enumerate_from 1 (Pdf.pages doc)).
Proof.
  unfold Ext2.headings.
  rewrite (fold_left_pointwise _
             (fun o (np : Z * Pdf.page_obj) =>
                fold_left (Ext2.line_step fs (fst np))
                          (Pdf.extract_text_lines (snd np)) o))
    by (intros o [n p]; reflexivity).
  rewrite fold_appending.
  - simpl. apply flat_map_ext. intros [n p]. simpl.
    now rewrite (fold_appending (Ext2.line_step fs n))
      by apply ext2_line_step_app.
  - intros o [n p]. simpl.
    rewrite !(fold_appending (Ext2.line_step fs n))
      by apply ext2_line_step_app.
    reflexivity.
Qed.

Lemma ext3_row_step_app hs n lines o y :
  Ext3.row_step hs n lines o y
  = (o ++ Ext3.row_step hs n lines [] y)%list.
Proof.
  unfold Ext3.row_step.
  destruct (sorted _ _); [now rewrite app_nil_r|].
  repeat (match goal with
          | |- context [if ?b then _ else _] => destruct b
          end; [now rewrite app_nil_r|]).
  reflexivity.
Qed.

Lemma ext3_headings_flat doc hs :
  Ext3.headings doc hs
  = List.flat_map
      (fun np =>
         let lines := Ext3.lines_of (Pdf.extract_words_x2_y2 (snd np)) in
         List.flat_map (Ext3.row_step hs (fst np) lines [])
                       (sorted Z.leb (dd_keys lines)))
      (Pdf.enumerate_from 1 (Pdf.pages doc)).
Proof.
  unfold Ext3.headings.
  rewrite (fold_left_pointwise _
             (fun o (np : Z * Pdf.page_obj) =>
                fold_left
                  (Ext3.row_step hs (fst np)
                     (Ext3.lines_of (Pdf.extract_words_x2_y2 (snd np))))
                  (sorted Z.leb
                     (dd_keys
                        (Ext3.lines_of (Pdf.extract_words_x2_y2 (snd np)))))
                  o))
    by (intros o [n p]; reflexivity).
  rewrite fold_appending.
  - simpl. apply flat_map_ext. intros [n p]. simpl.
    now rewrite (fold_appending (Ext3.row_step hs n _))
      by apply ext3_row_step_app.
  - intros o [n p]. simpl.
    rewrite !(fold_appending (Ext3.row_step hs n _))
      by apply ext3_row_step_app.
    reflexivity.
Qed.

Lemma enumerate_from_in {A} (l : list A) :
  forall i n x,
    In (n, x) (Pdf.enumerate_from i l) ->
    i <= n < i + Z.of_nat (List.length l)
    /\ nth_error l (Z.to_nat (n - i)) = Some x.
Proof.
  induction l as [|a l IH]; intros i n x H; simpl in H; [destruct H|].
  destruct H as [H|H].
  - injection H as <- <-. rewrite Z.sub_diag. simpl. split; [lia | reflexivity].
  - apply IH in H as [Hr Hn]. simpl List.length. split; [lia|].
    replace (Z.to_nat (n - i)) with (S (Z.to_nat (n - (i + 1)))) by lia.
    exact Hn.
Qed.

Lemma sublist_in {A} (l1 l2 : list A) x : sublist l1 l2 -> In x l1 -> In x l2.
Proof.
  induction 1 as [|y l1 l2 _ IH|y l1 l2 _ IH]; simpl; intros H.
  - exact H.
  - destruct H as [H|H]; [now left | right; auto].
  - right. auto.
Qed.

Lemma ext2_outline_in doc e :
  In e (outline (Ext2.extract_outline_with_pdfplumber (Pdf.Opened doc))) ->
  exists n p line,
    In (n, p) (Pdf.enumerate_from 1 (Pdf.pages doc))
    /\ In line (Pdf.extract_text_lines p)
    /\ In e (Ext2.line_step (Ext2.font_stats_of doc) n [] line).
Proof.
  unfold Ext2.extract_outline_with_pdfplumber.
  destruct (Pdf.pages doc) as [|first_page rest] eqn:Ep; simpl; [intros []|].
  intros H. apply (sublist_in _ _ _ (final_sublist _)) in H.
  rewrite ext2_headings_flat, Ep in H.
  apply in_flat_map in H as ([n p] & Hnp & H).
  apply in_flat_map in H as (line & Hline & H).
  now exists n, p, line.
Qed.

Lemma ext2_line_entry fs n line e :
  In e (Ext2.line_step fs n [] line) ->
  page e = n /\ text e = clean_text (Pdf.l_text line)
  /\ exists font_size is_bold,
      Ext2.classify (text e) font_size is_bold fs = Some (level e).
Proof.
  unfold Ext2.line_step.
  destruct (List.find _ _) as [first|]; [|intros []].
  destruct (Ext2.classify _ _ _ _) as [lvl|] eqn:E; [|intros []].
  intros [<-|[]]. simpl. repeat split. eauto.
Qed.

Lemma classify_some line_text font_size is_bold fs lvl :
  Ext2.classify line_text font_size is_bold fs = Some lvl ->
  Ext2.is_likely_heading line_text font_size is_bold fs
    (Z.of_nat (List.length (PyStr.split line_text))) = true
  /\ Ext2.current_level line_text font_size is_bold fs = Some lvl.
Proof.
  unfold Ext2.classify.
  destruct (Ext2.is_likely_heading _ _ _ _ _); simpl; [auto | discriminate].
Qed.

(** The next rule of a decision list did not fire. *)
Ltac next_rule R :=
  match goal with
  | |- (if ?b then false else _) = true -> _ =>
      destruct b eqn:R; [discriminate|]
  end.

Lemma likely_heading_shape line_text font_size is_bold fs n :
  Ext2.is_likely_heading line_text font_size is_bold fs n = true ->
  3 <= PyStr.len line_text
  /\ n <= 12
  /\ PyStr.endswith line_text "," = false
  /\ Re.search_end Ext2.toc_entry line_text = false
  /\ Re.match_end Ext2.revision_row line_text = false
  /\ Re.fullmatch Ext2.page_footer line_text = false
  /\ Re.fullmatch Ext2.only_digits line_text = false
  /\ (Re.match_ Ext2.numbered_item line_text = true ->
      n <= 8
      /\ (is_bold = true
          \/ (Ext2.h2_font_threshold fs <= font_size)%Q)).
Proof.
  unfold Ext2.is_likely_heading.
  next_rule R1. next_rule R2. next_rule R3. next_rule R4.
  next_rule R5. next_rule R6. next_rule R7. next_rule R8.
  intros _.
  apply orb_false_iff in R1 as [_ R1], R3 as [R3 R3'], R7 as [R7 R7'].
  apply Z.ltb_ge in R1.
  assert (Hn : n <= 12) by (destruct (Z.gtb_spec n 12); [discriminate | lia]).
  repeat (split; [first [assumption | reflexivity]|]).
  intros Hnum. rewrite Hnum in R5, R8. simpl in R5, R8. split.
  - destruct (Z.gtb_spec n 8); [discriminate | lia].
  - destruct is_bold; [now left|]. right. simpl in R8.
    unfold PyNum.ltb in R8. apply negb_false_iff, Qle_bool_iff in R8.
    exact R8.
Qed.

(** ** What the outline of [ext2.py] contains *)

(** Every entry of the outline of [ext2.py] is the cleaned text of a line
    of the page it names, and that text has passed the filter: it has at
    least 3 characters and at most 12 words, does not end with a comma, is
    neither a page footer nor a bare number, and, if it starts like a
    numbered item, has at most 8 words. *)
Theorem ext2_entries_are_filtered_lines :
  forall doc e,
    In e (outline (Ext2.extract_outline_with_pdfplumber (Pdf.Opened doc))) ->
    (exists p line,
        nth_error (Pdf.pages doc) (Z.to_nat (page e - 1)) = Some p
        /\ In line (Pdf.extract_text_lines p)
        /\ text e = clean_text (Pdf.l_text line))
    /\ 1 <= page e <= Z.of_nat (List.length (Pdf.pages doc))
    /\ 3 <= PyStr.len (text e)
    /\ (List.length (PyStr.split (text e)) <= 12)%nat
    /\ PyStr.endswith (text e) "," = false
    /\ Re.fullmatch Ext2.page_footer (text e) = false
    /\ Re.fullmatch Ext2.only_digits (text e) = false
    /\ (Re.match_ Ext2.numbered_item (text e) = true ->
        (List.length (PyStr.split (text e)) <= 8)%nat).
Proof.
  intros doc e H.
  apply ext2_outline_in in H as (n & p & line & Hnp & Hline & H).
  apply ext2_line_entry in H as (Hpage & Htext & size & bold & Hc).
  apply enumerate_from_in in Hnp as [Hrange Hnth].
  apply classify_some in Hc as [Hok _].
  apply likely_heading_shape in Hok
    as (Hlen & Hw & Hcomma & _ & _ & Hfoot & Hdig & Hnum).
  subst n. split; [now exists p, line|].
  split; [lia|]. split; [exact Hlen|]. split; [lia|].
  repeat (split; [assumption|]).
  intros Hm. destruct (Hnum Hm) as [H8 _]. lia.
Qed.

Lemma ext2_entries_are_filtered_lines_witness :
  3 <= PyStr.len "1. Introduction"
  /\ 1 <= 1 <= Z.of_nat (List.length (Pdf.pages Scenario.report)).
Proof.
  pose proof (ext2_entries_are_filtered_lines Scenario.report
                {| level := "H1"; text := "1. Introduction"; page := 1 |})
    as H.
  destruct H as (_ & Hpage & Hlen & _); [vm_compute; now left|].
  split; [exact Hlen | exact Hpage].
Defined.

Lemma current_level_cases line_text font_size is_bold fs lvl :
  Ext2.current_level line_text font_size is_bold fs = Some lvl ->
  match Ext2.numbered_level line_text with
  | Some l => lvl = l
  | None => lvl = "H1" \/ lvl = "H2" \/ lvl = "H3"
  end.
Proof.
  unfold Ext2.current_level.
  destruct (Ext2.numbered_level line_text) as [l|]; [congruence|].
  unfold Ext2.style_level.
  destruct (_ || _)%bool; [|discriminate].
  repeat (match goal with
          | |- context [if ?b then _ else _] => destruct b
          end; [intros H; injection H as <-; tauto|]).
  discriminate.
Qed.

Lemma numbered_level_cases line_text l :
  Ext2.numbered_level line_text = Some l ->
  (l = "H4" /\ Re.match_ Ext2.h4_pattern line_text = true)
  \/ (l = "H3" /\ Re.match_ Ext2.h3_pattern line_text = true)
  \/ (l = "H2" /\ Re.match_ Ext2.h2_pattern line_text = true)
  \/ (l = "H1" /\ Re.match_ Ext2.h1_pattern line_text = true).
Proof.
  unfold Ext2.numbered_level.
  destruct (Re.match_ Ext2.h4_pattern _) eqn:E4;
    [intros H; injection H as <-; tauto|].
  destruct (Re.match_ Ext2.h3_pattern _) eqn:E3;
    [intros H; injection H as <-; tauto|].
  destruct (Re.match_ Ext2.h2_pattern _) eqn:E2;
    [intros H; injection H as <-; tauto|].
  destruct (Re.match_ Ext2.h1_pattern _) eqn:E1;
    [intros H; injection H as <-; tauto | discriminate].
Qed.

(** In the outline of [ext2.py] the level of a numbered heading is the
    one its numbering gives, and a heading without numbering is H1, H2 or
    H3: an H4 entry always starts with four dotted numbers. *)
Theorem ext2_levels_follow_numbering :
  forall doc e,
    In e (outline (Ext2.extract_outline_with_pdfplumber (Pdf.Opened doc))) ->
    match Ext2.numbered_level (text e) with
    | Some l => level e = l
    | None => level e = "H1" \/ level e = "H2" \/ level e = "H3"
    end
    /\ (level e = "H1" \/ level e = "H2" \/ level e = "H3"
        \/ level e = "H4")
    /\ (level e = "H4" -> Re.match_ Ext2.h4_pattern (text e) = true).
Proof.
  intros doc e H.
  apply ext2_outline_in in H as (n & p & line & _ & _ & H).
  apply ext2_line_entry in H as (_ & _ & size & bold & Hc).
  apply classify_some in Hc as [_ Hc].
  apply current_level_cases in Hc.
  destruct (Ext2.numbered_level (text e)) as [l|] eqn:En.
  - subst l. split; [reflexivity|].
    apply numbered_level_cases in En
      as [[-> E]|[[-> E]|[[-> E]|[-> E]]]]; (split; [tauto|]);
      try (intros _; exact E); discriminate.
  - split; [exact Hc|]. split; [tauto|].
    intros E. rewrite E in Hc. destruct Hc as [Hc|[Hc|Hc]]; discriminate.
Qed.

Lemma ext2_levels_follow_numbering_witness :
  let e := {| level := "H1"; text := "1. Introduction"; page := 1 |} in
  level e = "H1" \/ level e = "H2" \/ level e = "H3" \/ level e = "H4".
Proof.
  intros e.
  apply (ext2_levels_follow_numbering Scenario.report e).
  vm_compute. now left.
Defined.

(** ** Reading order *)

Section Ordered.
Context {A : Type} (R : A -> A -> Prop).

Lemma ordered_app l1 l2 :
  StronglySorted R l1 -> StronglySorted R l2 ->
  (forall a b, In a l1 -> In b l2 -> R a b) ->
  StronglySorted R (l1 ++ l2).
Proof using Type.
  induction 1 as [|x l1 Hl1 IH Hx]; intros H2 H12; simpl; [exact H2|].
  constructor.
  - apply IH; [exact H2|]. intros a b Ha Hb. apply H12; [now right | exact Hb].
  - apply Forall_app. split; [exact Hx|].
    apply Forall_forall. intros b Hb. apply list_elem_of_In in Hb.
    apply H12; [now left | exact Hb].
Qed.

Lemma ordered_sublist l1 l2 :
  sublist l1 l2 -> StronglySorted R l2 -> StronglySorted R l1.
Proof using Type.
  induction 1 as [|x l1 l2 Hs IH|x l1 l2 Hs IH]; intros H.
  - constructor.
  - inversion H as [|? ? Hl Hx]; subst. constructor; [now apply IH|].
    apply Forall_forall. intros y Hy. rewrite Forall_forall in Hx.
    apply Hx. apply list_elem_of_In. apply list_elem_of_In in Hy.
    now apply (sublist_in l1 l2).
  - inversion H; subst. now apply IH.
Qed.

End Ordered.

Lemma same_page_ordered n (l : list entry) :
  (forall e, In e l -> page e = n) ->
  StronglySorted (fun a b => page a <= page b) l.
Proof.
  induction l as [|x l IH]; intros H; constructor.
  - apply IH. intros e He. apply H. now right.
  - apply Forall_forall. intros y Hy. apply list_elem_of_In in Hy.
    rewrite (H x), (H y); [lia | now right | now left].
Qed.

Lemma pages_in_order {P : Type} (f : Z * P -> list entry) (l : list P) :
  (forall np e, In e (f np) -> page e = fst np) ->
  forall i,
    StronglySorted (fun a b => page a <= page b)
      (List.flat_map f (Pdf.enumerate_from i l))
    /\ (forall e, In e (List.flat_map f (Pdf.enumerate_from i l)) ->
                  i <= page e < i + Z.of_nat (List.length l)).
Proof.
  intros Hf. induction l as [|p l IH]; intros i; simpl.
  - split; [constructor | intros e []].
  - destruct (IH (i + 1)) as [Hs Hr]. split.
    + apply ordered_app; [|exact Hs|].
      * apply (same_page_ordered i). intros e He. now apply Hf in He.
      * intros a b Ha Hb. apply Hf in Ha. apply Hr in Hb. simpl in Ha. lia.
    + intros e He. apply in_app_iff in He as [He|He].
      * apply Hf in He. simpl in He. lia.
      * apply Hr in He. lia.
Qed.

Lemma ext2_line_page fs np e :
  In e (List.flat_map (Ext2.line_step fs (fst np) [])
                      (Pdf.extract_text_lines (snd np))) ->
  page e = fst np.
Proof.
  intros H. apply in_flat_map in H as (line & _ & H).
  now apply ext2_line_entry in H.
Qed.

Lemma ext3_row_page hs n lines y e :
  In e (Ext3.row_step hs n lines [] y) -> page e = n.
Proof.
  unfold Ext3.row_step.
  destruct (sorted _ _); [intros []|].
  repeat (match goal with
          | |- context [if ?b then _ else _] => destruct b
          end; [intros []|]).
  intros [<-|[]]. reflexivity.
Qed.

(** In both extractors the entries of the outline stand in the order of
    the pages, and every page number is between 1 and the number of pages
    of the document. *)
Theorem outline_in_page_order :
  forall doc,
    let n := Z.of_nat (List.length (Pdf.pages doc)) in
    let outline2 :=
      outline (Ext2.extract_outline_with_pdfplumber (Pdf.Opened doc)) in
    let outline3 :=
      outline (Ext3.extract_outline_with_pdfplumber (Pdf.Opened doc)) in
    StronglySorted (fun a b => page a <= page b) outline2
    /\ StronglySorted (fun a b => page a <= page b) outline3
    /\ (forall e, In e outline2 \/ In e outline3 -> 1 <= page e <= n).
Proof.
  intros doc n outline2 outline3.
  assert (H2 : StronglySorted (fun a b => page a <= page b) outline2
               /\ forall e, In e outline2 -> 1 <= page e <= n).
  { unfold outline2, Ext2.extract_outline_with_pdfplumber.
    destruct (Pdf.pages doc) as [|first_page rest] eqn:Ep; simpl;
      [split; [constructor | intros e []]|].
    pose proof (pages_in_order _ (Pdf.pages doc)
                  (ext2_line_page (Ext2.font_stats_of doc)) 1) as [Hs Hr].
    rewrite <- ext2_headings_flat in Hs, Hr. split.
    - eapply ordered_sublist; [apply final_sublist | exact Hs].
    - intros e He. apply (sublist_in _ _ _ (final_sublist _)) in He.
      apply Hr in He. rewrite ?Ep in He. lia. }
  assert (H3 : StronglySorted (fun a b => page a <= page b) outline3
               /\ forall e, In e outline3 -> 1 <= page e <= n).
  { unfold outline3, Ext3.extract_outline_with_pdfplumber.
    destruct (Pdf.pages doc) as [|first_page rest] eqn:Ep; simpl;
      [split; [constructor | intros e []]|].
    destruct (Ext3.analyze_document_styles _) as [body hs]. simpl.
    assert (Hpage : forall (np : Z * Pdf.page_obj) e,
               In e (List.flat_map
                       (Ext3.row_step hs (fst np)
                          (Ext3.lines_of (Pdf.extract_words_x2_y2 (snd np)))
                          [])
                       (sorted Z.leb
                          (dd_keys
                             (Ext3.lines_of
                                (Pdf.extract_words_x2_y2 (snd np)))))) ->
               page e = fst np).
    { intros np e H. apply in_flat_map in H as (y & _ & H).
      now apply ext3_row_page in H. }
    pose proof (pages_in_order _ (Pdf.pages doc) Hpage 1) as [Hs Hr].
    pose proof (ext3_headings_flat doc hs) as Hflat. simpl in Hflat.
    rewrite <- Hflat in Hs, Hr. rewrite ?Ep in Hr. split.
    - eapply ordered_sublist; [apply final_sublist | exact Hs].
    - intros e He. apply (sublist_in _ _ _ (final_sublist _)) in He.
      apply Hr in He. lia. }
  destruct H2 as [Hs2 Hr2], H3 as [Hs3 Hr3].
  split; [exact Hs2|]. split; [exact Hs3|].
  intros e [He|He]; auto.
Qed.

Lemma outline_in_page_order_witness :
  1 <= page {| level := "H1"; text := "2. Methods"; page := 1 |}
  <= Z.of_nat (List.length (Pdf.pages Scenario.report)).
Proof.
  apply (outline_in_page_order Scenario.report).
  left. vm_compute. tauto.
Defined.

(** ** Font sizes in [ext3.py] *)

Lemma fold_left_flat_map {A B C} (f : A -> B -> A) (g : C -> list B) l :
  forall a,
    fold_left (fun a c => fold_left f (g c) a) l a
    = fold_left f (List.flat_map g l) a.
Proof.
  induction l as [|c l IH]; intros a; simpl; [reflexivity|].
  now rewrite fold_left_app, IH.
Qed.

Section Counting.
Variable size_of : Pdf.word -> Z.

Local Abbreviation count_step :=
  (fun font_sizes word =>
     dd_update Z.eqb (size_of word) (fun n => n + 1) 0 font_sizes).

Lemma count_get k words :
  forall init,
    dd_get Z.eqb k 0 (fold_left count_step words init)
    = dd_get Z.eqb k 0 init
      + Z.of_nat (List.length
                    (List.filter (fun w => size_of w =? k) words)).
Proof using Type.
  induction words as [|w words IH]; intros init; simpl; [lia|].
  rewrite IH, (dd_get_update Z.eqb Zeqb_eq), (Z.eqb_sym k).
  destruct (size_of w =? k); simpl List.length; lia.
Qed.

Lemma count_keys_nodup words :
  forall init : list (Z * Z),
    NoDup (dd_keys init) -> NoDup (dd_keys (fold_left count_step words init)).
Proof using Type.
  induction words as [|w words IH]; intros init H; simpl; [exact H|].
  apply IH. now apply (dd_keys_update_nodup Z.eqb Zeqb_eq).
Qed.

Lemma count_keys k words :
  forall init : list (Z * Z),
    In k (dd_keys (fold_left count_step words init))
    <-> In k (dd_keys init) \/ exists w, In w words /\ size_of w = k.
Proof using Type.
  induction words as [|w words IH]; intros init.
  - simpl. split; [now left | intros [H|(w & [] & _)]; exact H].
  - change (fold_left count_step (w :: words) init)
      with (fold_left count_step words (count_step init w)).
    rewrite IH. cbv beta. rewrite (dd_keys_update Z.eqb Zeqb_eq). split.
    + intros [[->|H]|(w' & Hw' & Hs)].
      * right. exists w. split; [now left | reflexivity].
      * now left.
      * right. exists w'. split; [now right | exact Hs].
    + intros [H|(w' & [<-|Hw'] & Hs)].
      * left. now right.
      * left. left. now symmetry.
      * right. exists w'. now split.
Qed.

End Counting.

Lemma ext3_count_sizes doc :
  Ext3.count_sizes doc
  = fold_left
      (fun font_sizes word =>
         dd_update Z.eqb (PyNum.round (Pdf.get0 (Pdf.w_size word)))
                   (fun n => n + 1) 0 font_sizes)
      (all_words doc) [].
Proof.
  unfold Ext3.count_sizes, all_words.
  now rewrite <- fold_left_flat_map.
Qed.

Lemma ext3_count_is_occurrences doc k :
  dd_get Z.eqb k 0 (Ext3.count_sizes doc) = occurrences doc k.
Proof.
  rewrite ext3_count_sizes.
  rewrite (count_get (fun w => PyNum.round (Pdf.get0 (Pdf.w_size w)))).
  reflexivity.
Qed.

Lemma filter_length_pos {A} (f : A -> bool) l :
  (0 < List.length (List.filter f l))%nat
  <-> exists x, In x l /\ f x = true.
Proof.
  split.
  - destruct (List.filter f l) as [|x r] eqn:E; simpl; [lia|]. intros _.
    exists x. apply filter_In. rewrite E. now left.
  - intros (x & Hx & Hf).
    assert (H : In x (List.filter f l)) by (apply filter_In; now split).
    destruct (List.filter f l); [destruct H | simpl; lia].
Qed.

Lemma ext3_size_counted doc k :
  In k (dd_keys (Ext3.count_sizes doc)) <-> 0 < occurrences doc k.
Proof.
  rewrite ext3_count_sizes.
  rewrite (count_keys (fun w => PyNum.round (Pdf.get0 (Pdf.w_size w)))).
  unfold occurrences.
  rewrite <- Nat2Z.inj_0, <- Nat2Z.inj_lt, filter_length_pos. simpl.
  split.
  - intros [[]|(w & Hw & Hs)]. exists w. split; [exact Hw|].
    now apply Z.eqb_eq.
  - intros (w & Hw & Hs). right. exists w. split; [exact Hw|].
    now apply Z.eqb_eq.
Qed.

Lemma dd_get_default_or_in (d : list (Z * Z)) k dflt :
  dd_get Z.eqb k dflt d = dflt \/ In (k, dd_get Z.eqb k dflt d) d.
Proof.
  induction d as [|[k0 v] d IH]; simpl; [now left|].
  destruct (Z.eqb_spec k k0) as [->|_]; [right; now left|].
  destruct IH as [IH|IH]; [now left | right; now right].
Qed.

Lemma dd_get_of_pair (d : list (Z * Z)) k v dflt :
  NoDup (dd_keys d) -> In (k, v) d -> dd_get Z.eqb k dflt d = v.
Proof.
  unfold dd_keys.
  induction d as [|[k0 v0] d IH]; simpl; intros Hnd H; [destruct H|].
  apply NoDup_cons in Hnd as [Hnot Hnd].
  destruct H as [H|H].
  - injection H as -> ->. now rewrite Z.eqb_refl.
  - destruct (Z.eqb_spec k k0) as [->|_]; [|now apply IH].
    exfalso. apply Hnot, list_elem_of_In.
    change k0 with (fst (k0, v)). now apply in_map.
Qed.

Lemma max_by_count_greatest d :
  forall best,
    exists v,
      In (Ext3.max_by_count best d, v) (best :: d)
      /\ forall k' v', In (k', v') (best :: d) -> v' <= v.
Proof.
  induction d as [|[k v] d IH]; intros [kb vb]; simpl.
  - exists vb. split; [now left|].
    intros k' v' [H|[]]. injection H as _ <-. lia.
  - destruct (Z.ltb_spec vb v) as [Hlt|Hge].
    + destruct (IH (k, v)) as (m & Hin & Hmax). exists m. split.
      * right. exact Hin.
      * intros k' v' [H|H]; [|now apply (Hmax k' v')].
        injection H as _ <-. specialize (Hmax k v (or_introl eq_refl)). lia.
    + destruct (IH (kb, vb)) as (m & Hin & Hmax). exists m. split.
      * destruct Hin as [Hin|Hin]; [now left | right; now right].
      * intros k' v' [H|[H|H]].
        -- apply (Hmax k' v'). left. exact H.
        -- injection H as _ <-.
           specialize (Hmax kb vb (or_introl eq_refl)). lia.
        -- apply (Hmax k' v'). now right.
Qed.

Lemma filter_nodup {A} (f : A -> bool) (l : list A) :
  NoDup l -> NoDup (List.filter f l).
Proof.
  induction l as [|x l IH]; intros H; simpl; [constructor|].
  apply NoDup_cons in H as [Hx Hl].
  destruct (f x); [|now apply IH].
  apply NoDup_cons. split; [|now apply IH].
  intros Hin. apply Hx. apply list_elem_of_In.
  apply list_elem_of_In, filter_In in Hin. tauto.
Qed.

Lemma descending_strict (l : list Z) :
  StronglySorted (fun a b => Z.leb b a = true) l -> NoDup l ->
  StronglySorted (fun a b => b < a) l.
Proof.
  induction 1 as [|x l Hl IH Hx]; intros Hnd; constructor.
  - apply IH. now apply NoDup_cons in Hnd.
  - apply NoDup_cons in Hnd as [Hnotin _].
    apply Forall_forall. intros y Hy.
    rewrite Forall_forall in Hx. specialize (Hx y Hy).
    apply Z.leb_le in Hx.
    assert (x <> y) by (intros ->; contradiction). lia.
Qed.

(** [analyze_document_styles] returns a most frequent rounded word size
    as the body size, and as heading sizes exactly the sizes that occur in
    the document and exceed the body size by more than 1, each once, from
    the largest to the smallest. *)
Theorem ext3_body_and_heading_sizes :
  forall doc,
    let body_size := fst (Ext3.analyze_document_styles doc) in
    let heading_sizes := snd (Ext3.analyze_document_styles doc) in
    (forall size, occurrences doc size <= occurrences doc body_size)
    /\ StronglySorted (fun a b => b < a) heading_sizes
    /\ (forall h,
           In h heading_sizes
           <-> 0 < occurrences doc h /\ body_size + 1 < h).
Proof.
  intros doc body_size heading_sizes.
  assert (Hnd : NoDup (dd_keys (Ext3.count_sizes doc))).
  { rewrite ext3_count_sizes. apply count_keys_nodup. constructor. }
  pose proof (ext3_count_is_occurrences doc) as Hocc.
  pose proof (ext3_size_counted doc) as Hkeys.
  unfold body_size, heading_sizes, Ext3.analyze_document_styles.
  destruct (Ext3.count_sizes doc) as [|first rest] eqn:E.
  - simpl. split; [|split].
    + intros size. rewrite <- !Hocc. simpl. lia.
    + constructor.
    + intros h. split; [intros []|]. intros [H _].
      apply Hkeys in H. destruct H.
  - cbn [fst snd].
    destruct (max_by_count_greatest rest first) as (m & Hin & Hmax).
    set (body := Ext3.max_by_count first rest) in *.
    assert (Hbody : occurrences doc body = m).
    { rewrite <- Hocc. now apply dd_get_of_pair. }
    split; [|split].
    + intros size. rewrite Hbody, <- Hocc.
      destruct (dd_get_default_or_in (first :: rest) size 0) as [->|H].
      * rewrite <- Hbody. unfold occurrences. lia.
      * now apply (Hmax size).
    + apply descending_strict.
      * apply (sorted_reverse_ordered Z.leb Zleb_total Zleb_trans).
      * rewrite sorted_reverse_perm. now apply filter_nodup.
    + intros h.
      assert (Hperm : In h (sorted_reverse Z.leb
                              (List.filter (fun size => size >? body + 1)
                                           (dd_keys (first :: rest))))
                      <-> In h (List.filter (fun size => size >? body + 1)
                                            (dd_keys (first :: rest)))).
      { split; apply Permutation_in;
          [|symmetry]; apply sorted_reverse_perm. }
      rewrite Hperm, filter_In, Hkeys.
      destruct (Z.gtb_spec h (body + 1)); split; intros [H1 H2];
        split; try assumption; try reflexivity; try lia; discriminate.
Qed.

Lemma ext3_body_and_heading_sizes_witness :
  In 20 (snd (Ext3.analyze_document_styles Inputs.sized))
  /\ ~ In 13 (snd (Ext3.analyze_document_styles Inputs.sized)).
Proof.
  pose proof (ext3_body_and_heading_sizes Inputs.sized) as (_ & _ & H).
  split.
  - apply H. vm_compute. split; reflexivity.
  - intros H13. apply H in H13 as [_ H13]. vm_compute in H13. discriminate.
Defined.

(** ** Levels in [ext3.py] *)





(** ** Font thresholds in [ext2.py] *)

Section AnyKeys.
Context {K V : Type} (eqb : K -> K -> bool).



End AnyKeys.







(** ** The relevance test *)

Lemma shared_at_most_all (query_keywords sent_keywords : list string) :
  0 <= Persona.intersection query_keywords sent_keywords
    <= Persona.union query_keywords sent_keywords.
Proof.
  unfold Persona.intersection, Persona.union. split; [lia|].
  apply inj_le. apply subseteq_size.
  intros x Hx. apply elem_of_intersection in Hx as [Hx _].
  apply elem_of_union. now left.
Qed.

(** The Jaccard similarity is between 0 and 1; a sentence passes the test
    exactly when 20 times the number of shared lemmas exceeds the number of
    distinct lemmas of query and sentence together, so a sentence that
    shares no lemma with the query never passes. *)
Theorem relevance_test_counts :
  forall query_keywords sent,
    let sent_keywords := Persona.keywords (Persona.span_tokens sent) in
    let shared := Persona.intersection query_keywords sent_keywords in
    let all := Persona.union query_keywords sent_keywords in
    (0 <= Persona.jaccard_similarity query_keywords sent_keywords <= 1)%Q
    /\ (Persona.is_relevant query_keywords sent = true <-> all < 20 * shared)
    /\ (Persona.is_relevant query_keywords sent = true ->
        exists lemma, In lemma query_keywords /\ In lemma sent_keywords).
Proof.
  intros query_keywords sent sent_keywords shared all.
  pose proof (shared_at_most_all query_keywords sent_keywords) as Hb.
  fold shared all in Hb.
  assert (Hiff : Persona.is_relevant query_keywords sent = true
                 <-> all < 20 * shared).
  { unfold Persona.is_relevant, Persona.jaccard_similarity, PyNum.ltb.
    fold sent_keywords. fold shared all.
    destruct all as [|p|p] eqn:Ea.
    - simpl. split; [discriminate | lia].
    - rewrite andb_true_iff, negb_true_iff. split.
      + intros [_ H].
        assert (Hlt : (5 # 100 < inject_Z shared / inject_Z (Z.pos p))%Q).
        { apply Qnot_le_lt. intros Hle. apply Qle_bool_iff in Hle.
          congruence. }
        unfold Qlt, Qdiv, Qmult, Qinv, inject_Z in Hlt. simpl in Hlt. lia.
      + intros H. split; [reflexivity|].
        destruct (Qle_bool _ _) eqn:E; [|reflexivity].
        apply Qle_bool_iff in E.
        unfold Qle, Qdiv, Qmult, Qinv, inject_Z in E. simpl in E. lia.
    - lia. }
  split; [|split; [exact Hiff|]].
  - unfold Persona.jaccard_similarity. fold sent_keywords. fold shared all.
    destruct all as [|p|p]; [| |lia].
    + assert (shared = 0) by lia. subst shared.
      unfold Qdiv, Qinv. simpl. rewrite Qmult_0_r. split; discriminate.
    + unfold Qle, Qdiv, Qmult, Qinv, inject_Z. simpl. split; lia.
  - intros H. apply Hiff in H.
    assert (Hpos : 0 < shared) by lia.
    unfold shared, Persona.intersection in Hpos.
    assert (Hne : (list_to_set query_keywords : gset string)
                    ∩ list_to_set sent_keywords ≠ ∅).
    { intros E. rewrite E, size_empty in Hpos. lia. }
    apply set_choose_L in Hne as [lemma Hl].
    apply elem_of_intersection in Hl as [H1 H2].
    apply elem_of_list_to_set, list_elem_of_In in H1.
    apply elem_of_list_to_set, list_elem_of_In in H2.
    now exists lemma.
Qed.

Lemma relevance_test_counts_witness :
  exists lemma,
    In lemma ["learning"; "pipeline"]
    /\ In lemma (Persona.keywords
                   (Persona.span_tokens Inputs.learning_sentence)).
Proof.
  apply (relevance_test_counts ["learning"; "pipeline"]
           Inputs.learning_sentence).
  vm_compute. reflexivity.
Defined.

(** ** The sentences retained for one section *)

Lemma total_length_app a b :
  Persona.total_length (a ++ b)
  = Persona.total_length a + Persona.total_length b.
Proof.
  unfold Persona.total_length.
  induction a as [|x a IH]; simpl; [reflexivity|]. rewrite IH. lia.
Qed.

Lemma total_length_nonneg a : 0 <= Persona.total_length a.
Proof.
  unfold Persona.total_length.
  induction a as [|x a IH]; simpl; [lia|]. pose proof (len_nonneg x). lia.
Qed.

Lemma relevant_sentences_cons query_keywords sent rest acc :
  Persona.relevant_sentences query_keywords (sent :: rest) acc
  = let acc' :=
      if Persona.is_relevant query_keywords sent
      then (acc ++ [retained_text sent])%list else acc in
    if Persona.total_length acc' >? 1000 then acc'
    else Persona.relevant_sentences query_keywords rest acc'.
Proof. reflexivity. Qed.

Lemma retained_is_prefix query_keywords sentences :
  forall acc,
    exists k,
      Persona.relevant_sentences query_keywords sentences acc
      = (acc ++ List.map retained_text
                  (List.filter (Persona.is_relevant query_keywords)
                               (firstn k sentences)))%list.
Proof.
  induction sentences as [|sent rest IH]; intros acc.
  - exists 0%nat. simpl. now rewrite app_nil_r.
  - rewrite relevant_sentences_cons. cbv zeta.
    destruct (Persona.is_relevant query_keywords sent) eqn:E.
    + destruct (_ >? 1000).
      * exists 1%nat. simpl. now rewrite E.
      * destruct (IH (acc ++ [retained_text sent])%list) as [k Hk].
        exists (S k). rewrite Hk. simpl. rewrite E. simpl.
        now rewrite <- app_assoc.
    + destruct (_ >? 1000).
      * exists 0%nat. simpl. now rewrite app_nil_r.
      * destruct (IH acc) as [k Hk].
        exists (S k). rewrite Hk. simpl. now rewrite E.
Qed.

Lemma retained_all_under_cap query_keywords sentences :
  forall acc,
    Persona.total_length
      (Persona.relevant_sentences query_keywords sentences acc) <= 1000 ->
    Persona.relevant_sentences query_keywords sentences acc
    = (acc ++ List.map retained_text
                (List.filter (Persona.is_relevant query_keywords)
                             sentences))%list.
Proof.
  induction sentences as [|sent rest IH]; intros acc.
  - simpl. now rewrite app_nil_r.
  - rewrite relevant_sentences_cons. cbv zeta. simpl List.filter.
    destruct (Persona.is_relevant query_keywords sent) eqn:E.
    + destruct (Z.gtb_spec (Persona.total_length
                              (acc ++ [retained_text sent])) 1000);
        [lia|].
      intros Hcap. rewrite (IH _ Hcap). simpl. now rewrite <- app_assoc.
    + destruct (Z.gtb_spec (Persona.total_length acc) 1000); [lia|].
      apply IH.
Qed.

Lemma retained_overshoot query_keywords sentences :
  forall acc,
    Persona.total_length acc <= 1000 ->
    Persona.total_length
      (removelast (Persona.relevant_sentences query_keywords sentences acc))
    <= 1000.
Proof.
  induction sentences as [|sent rest IH]; intros acc Hacc.
  - simpl. destruct acc as [|x acc] using rev_ind; [simpl; lia|].
    rewrite removelast_last. rewrite total_length_app in Hacc.
    pose proof (total_length_nonneg [x]). lia.
  - rewrite relevant_sentences_cons. cbv zeta.
    destruct (Persona.is_relevant query_keywords sent).
    + destruct (Z.gtb_spec (Persona.total_length
                              (acc ++ [retained_text sent])) 1000).
      * now rewrite removelast_last.
      * now apply IH.
    + destruct (Z.gtb_spec (Persona.total_length acc) 1000); [lia|].
      now apply IH.
Qed.

(** The retained sentences of a section are the relevant sentences of a
    prefix of its sentences, stripped and in their order.  As long as they
    total at most 1000 characters none is cut off; and only the last one
    retained can take the total over 1000. *)
Theorem retained_sentences_greedy_prefix :
  forall query_keywords sentences,
    let retained :=
      Persona.relevant_sentences query_keywords sentences [] in
    (exists k,
        retained
        = List.map retained_text
            (List.filter (Persona.is_relevant query_keywords)
                         (firstn k sentences)))
    /\ (Persona.total_length retained <= 1000 ->
        retained
        = List.map retained_text
            (List.filter (Persona.is_relevant query_keywords) sentences))
    /\ Persona.total_length (removelast retained) <= 1000.
Proof.
  intros query_keywords sentences retained. split; [|split].
  - apply (retained_is_prefix query_keywords sentences []).
  - apply (retained_all_under_cap query_keywords sentences []).
  - apply retained_overshoot. simpl. lia.
Qed.

Lemma retained_sentences_greedy_prefix_witness :
  Persona.relevant_sentences ["learning"; "pipeline"]
    [Inputs.learning_sentence] []
  = ["We use learning pipelines."].
Proof.
  rewrite (proj1 (proj2 (retained_sentences_greedy_prefix
                           ["learning"; "pipeline"]
                           [Inputs.learning_sentence]))).
  - vm_compute. reflexivity.
  - vm_compute. discriminate.
Defined.

(** ** The refined sections *)

Section RefineLoop.
Variable nlp : string -> Persona.doc.
Variable query_keywords : list string.

Local Abbreviation loop := (Persona.sub_section_loop nlp query_keywords).
Local Abbreviation retained_of :=
  (fun s => Persona.relevant_sentences query_keywords
              (Persona.sents (nlp (Persona.full_text_content s))) []).

Lemma loop_window ranked :
  forall i,
    (List.length (loop i ranked [])
     <= Persona.top_n_sections_for_sub_analysis - i)%nat
    /\ loop i ranked []
       = loop i (firstn (Persona.top_n_sections_for_sub_analysis - i) ranked)
              []
    /\ (forall r,
           In r (loop i ranked []) ->
           exists s,
             In s (firstn (Persona.top_n_sections_for_sub_analysis - i)
                          ranked)
             /\ Persona.full_text_content s <> ""
             /\ retained_of s <> []
             /\ r = {| Persona.r_document := Persona.document s;
                       Persona.r_page_number := Persona.page_number s;
                       Persona.refined_text :=
                         PyStr.join " " (retained_of s) |}).
Proof using Type.
  induction ranked as [|s rest IH]; intros i.
  - rewrite firstn_nil. simpl. split; [lia|]. split; [reflexivity|].
    intros r [].
  - destruct (Nat.leb_spec Persona.top_n_sections_for_sub_analysis i)
      as [Hout|Hin].
    + rewrite (loop_break nlp query_keywords) by exact Hout.
      replace (Persona.top_n_sections_for_sub_analysis - i)%nat
        with 0%nat by lia.
      simpl. split; [lia|]. split; [reflexivity|]. intros r [].
    + destruct (IH (S i)) as (Hlen & Hfirst & Hfrom).
      replace (Persona.top_n_sections_for_sub_analysis - i)%nat
        with (S (Persona.top_n_sections_for_sub_analysis - S i)) by lia.
      rewrite firstn_cons.
      rewrite !(loop_cons nlp query_keywords).
      destruct (Nat.leb_spec Persona.top_n_sections_for_sub_analysis i);
        [lia|].
      assert (Hrest : forall r,
                 In r (loop (S i) rest []) ->
                 exists s0,
                   In s0 (s :: firstn
                                 (Persona.top_n_sections_for_sub_analysis
                                  - S i) rest)
                   /\ Persona.full_text_content s0 <> ""
                   /\ retained_of s0 <> []
                   /\ r = {| Persona.r_document := Persona.document s0;
                             Persona.r_page_number := Persona.page_number s0;
                             Persona.refined_text :=
                               PyStr.join " " (retained_of s0) |}).
      { intros r Hr. destruct (Hfrom r Hr) as (s0 & Hs0 & H').
        exists s0. split; [now right | exact H']. }
      destruct (PyStr.is_empty (Persona.full_text_content s)) eqn:Ee.
      * split; [lia|]. split; [exact Hfirst | exact Hrest].
      * destruct (retained_of s) as [|x xs] eqn:Er.
        -- split; [lia|]. split; [exact Hfirst | exact Hrest].
        -- rewrite (loop_acc nlp query_keywords rest),
             (loop_acc nlp query_keywords (firstn _ rest)).
           rewrite <- Hfirst. simpl List.length. split; [lia|].
           split; [reflexivity|].
           intros r [<-|Hr]; [|now apply Hrest].
           exists s. split; [now left|]. split.
           ++ intros E. rewrite E in Ee. discriminate.
           ++ rewrite Er. split; [discriminate | reflexivity].
Qed.

End RefineLoop.

(** The refined output has at most 5 entries and depends on the first 5
    ranked sections only; each entry belongs to one of them that has text
    and at least one retained sentence, and its text is those sentences
    joined by single spaces. *)
Theorem refinement_covers_top_five :
  forall nlp query_keywords ranked,
    let refined := Persona.sub_section_loop nlp query_keywords 0 ranked [] in
    (List.length refined <= 5)%nat
    /\ refined
       = Persona.sub_section_loop nlp query_keywords 0 (firstn 5 ranked) []
    /\ (forall r,
           In r refined ->
           exists s,
             In s (firstn 5 ranked)
             /\ Persona.full_text_content s <> ""
             /\ Persona.relevant_sentences query_keywords
                  (Persona.sents (nlp (Persona.full_text_content s))) []
                <> []
             /\ r = {| Persona.r_document := Persona.document s;
                       Persona.r_page_number := Persona.page_number s;
                       Persona.refined_text :=
                         PyStr.join " "
                           (Persona.relevant_sentences query_keywords
                              (Persona.sents
                                 (nlp (Persona.full_text_content s))) [])
                    |}).
Proof.
  intros nlp query_keywords ranked refined.
  exact (loop_window nlp query_keywords ranked 0).
Qed.

(** ** Section boundaries *)

(** The boundaries follow the outline entry by entry: each section starts
    at its own heading and ends at the heading of the next entry, and the
    last section has no end. *)
Theorem boundaries_chain_outline :
  forall pdf_file_path outline i e,
    nth_error outline i = Some e ->
    nth_error (Persona.section_boundaries pdf_file_path outline) i
    = Some {| Persona.b_title := text e; Persona.b_page := page e;
              Persona.doc_path := pdf_file_path;
              Persona.next_title :=
                option_map text (nth_error outline (S i));
              Persona.next_page :=
                option_map page (nth_error outline (S i)) |}.
Proof.
  intros pdf_file_path outline.
  induction outline as [|x rest IH]; intros i e H; [now destruct i|].
  destruct i as [|i]; simpl in *.
  - injection H as <-. now destruct rest.
  - now apply IH.
Qed.

Lemma boundaries_chain_outline_witness :
  nth_error (Persona.section_boundaries "input/report.pdf"
               (outline (Scenario.extract "input/report.pdf"))) 0
  = Some {| Persona.b_title := "1. Introduction"; Persona.b_page := 1;
            Persona.doc_path := "input/report.pdf";
            Persona.next_title := Some "2. Methods";
            Persona.next_page := Some 1 |}.
Proof.
  apply (boundaries_chain_outline "input/report.pdf"
           (outline (Scenario.extract "input/report.pdf")) 0
           {| level := "H1"; text := "1. Introduction"; page := 1 |}).
  vm_compute. reflexivity.
Defined.

(** ** The analysis, as the module runs *)

Lemma no_outline_no_sections globals pdfplumber_open extract paths :
  forall acc,
    Forall (fun path => outline (extract path) = []) paths ->
    Persona.all_extracted_sections globals pdfplumber_open extract paths acc
    = Persona.Ok acc.
Proof.
  induction paths as [|path paths IH]; intros acc H; [reflexivity|].
  apply Forall_cons in H as [Hp H]. simpl. rewrite Hp. simpl. now apply IH.
Qed.

Lemma outlines_empty_or_not (extract : string -> result) paths :
  Forall (fun path => outline (extract path) = []) paths
  \/ Exists (fun path => outline (extract path) <> []) paths.
Proof.
  induction paths as [|path paths [IH|IH]].
  - left. constructor.
  - destruct (outline (extract path)) eqn:E.
    + left. now constructor.
    + right. constructor. rewrite E. discriminate.
  - right. now constructor.
Qed.

(** The analysis returns a result exactly when no document has an outline
    entry, unreadable documents included, and the result then lists the
    documents by base name and has no section and no refined text: as the
    module stands, it never returns a ranked section. *)
Theorem analysis_returns_only_empty_results :
  forall pdfplumber_open extract nlp tfidf_cosine now paths persona job out,
    Persona.analyze_document_collection Persona.module_globals
      pdfplumber_open extract nlp tfidf_cosine now paths persona job
    = Persona.Ok out
    <-> Forall (fun path => outline (extract path) = []) paths
        /\ out
           = {| Persona.a_metadata :=
                  {| Persona.input_documents :=
                       List.map Persona.basename paths;
                     Persona.persona := persona;
                     Persona.job_to_be_done := job;
                     Persona.processing_timestamp := now |};
                Persona.extracted_sections := [];
                Persona.sub_section_analysis := [] |}.
Proof.
  intros pdfplumber_open extract nlp tfidf_cosine now paths persona job out.
  split.
  - intros H.
    destruct (outlines_empty_or_not extract paths) as [Hall|Hex].
    + split; [exact Hall|].
      unfold Persona.analyze_document_collection in H.
      rewrite no_outline_no_sections in H by exact Hall.
      simpl in H. now injection H as <-.
    + unfold Persona.analyze_document_collection in H.
      rewrite all_extracted_sections_raises in H by exact Hex.
      discriminate.
  - intros [Hall ->].
    unfold Persona.analyze_document_collection.
    now rewrite no_outline_no_sections by exact Hall.
Qed.

Lemma analysis_returns_only_empty_results_witness :
  Persona.analyze_document_collection Persona.module_globals
    Scenario.open_file Scenario.extract Scenario.cooking_nlp
    Scenario.tied_scores "2026-01-01T00:00:00" ["input/missing.pdf"]
    "analyst" "review"
  = Persona.Ok
      {| Persona.a_metadata :=
           {| Persona.input_documents := ["missing.pdf"];
              Persona.persona := "analyst";
              Persona.job_to_be_done := "review";
              Persona.processing_timestamp := "2026-01-01T00:00:00" |};
         Persona.extracted_sections := [];
         Persona.sub_section_analysis := [] |}.
Proof.
  apply (proj2 (analysis_returns_only_empty_results
                  Scenario.open_file Scenario.extract Scenario.cooking_nlp
                  Scenario.tied_scores "2026-01-01T00:00:00"
                  ["input/missing.pdf"] "analyst" "review" _)).
  split; [|reflexivity].
  constructor; [vm_compute; reflexivity | constructor].
Defined.

Lemma missing_anchor_empty_when_repaired_witness :
  Persona.get_text_content_for_section repaired_globals Scenario.open_file
    "input/report.pdf" 1 "No such title" None None
  = Persona.Ok "".
Proof.
  apply missing_anchor_empty_when_repaired.
  - reflexivity.
  - reflexivity.
  - intros doc page line Hopen Hpage Hline.
    vm_compute in Hopen. injection Hopen as <-.
    destruct Hpage as [<-|[]].
    repeat (destruct Hline as [<-|Hline]; [vm_compute; reflexivity|]).
    destruct Hline.
Defined.

(** ** The list of paths on the command line *)

Lemma string_of_snoc l c (x : string) :
  string_of_list_ascii (l ++ [c]) ++ x
  = string_of_list_ascii l ++ String c x.
Proof.
  induction l as [|a l IH]; [reflexivity|].
  simpl. rewrite !append_cons. now rewrite IH.
Qed.

Lemma append_nil_r (s : string) : s ++ "" = s.
Proof.
  induction s as [|c s IH]; [reflexivity|]. now rewrite append_cons, IH.
Qed.

Lemma append_assoc (a b c : string) : (a ++ b) ++ c = a ++ (b ++ c).
Proof.
  induction a as [|x a IH]; [reflexivity|]. now rewrite !append_cons, IH.
Qed.

Lemma split_on_last sep x :
  forall cur,
    PyStr.existsb_str (Ascii.eqb sep) x = false ->
    PersonaMain.split_on_aux sep cur x
    = [string_of_list_ascii (List.rev cur) ++ x].
Proof.
  induction x as [|c x IH]; intros cur H; simpl.
  - now rewrite append_nil_r.
  - simpl in H. apply orb_false_iff in H as [Hc Hx].
    rewrite Ascii.eqb_sym, Hc, (IH _ Hx). simpl.
    now rewrite string_of_snoc.
Qed.

Lemma split_on_piece sep x rest :
  forall cur,
    PyStr.existsb_str (Ascii.eqb sep) x = false ->
    PersonaMain.split_on_aux sep cur (x ++ String sep rest)
    = (string_of_list_ascii (List.rev cur) ++ x)
        :: PersonaMain.split_on_aux sep [] rest.
Proof.
  induction x as [|c x IH]; intros cur H.
  - rewrite append_nil_l, append_nil_r. simpl.
    now rewrite Ascii.eqb_refl.
  - simpl in H. apply orb_false_iff in H as [Hc Hx].
    rewrite append_cons. simpl.
    rewrite Ascii.eqb_sym, Hc, (IH _ Hx). simpl.
    now rewrite string_of_snoc.
Qed.

Lemma split_on_join l :
  l <> [] ->
  Forall (fun p => PyStr.existsb_str (Ascii.eqb ",") p = false) l ->
  PersonaMain.split_on "," (PyStr.join "," l) = l.
Proof.
  unfold PersonaMain.split_on.
  induction l as [|x l IH]; intros Hne H; [now destruct Hne|].
  apply Forall_cons in H as [Hx Hl].
  destruct l as [|y l].
  - simpl. now rewrite split_on_last.
  - change (PyStr.join "," (x :: y :: l))
      with (x ++ String "," (PyStr.join "," (y :: l))).
    rewrite split_on_piece by exact Hx.
    rewrite IH; [reflexivity | discriminate | exact Hl].
Qed.

Lemma clean_paths_kept l :
  Forall (fun p => PyStr.strip p = p /\ p <> "") l ->
  List.map PyStr.strip
    (List.filter (fun p => negb (PyStr.is_empty (PyStr.strip p))) l)
  = l.
Proof.
  induction l as [|p l IH]; intros H; [reflexivity|].
  apply Forall_cons in H as [[Hs Hne] H].
  cbn [List.filter]. rewrite Hs.
  destruct p as [|c p]; [congruence|].
  cbn [PyStr.is_empty negb List.map]. rewrite Hs. f_equal. now apply IH.
Qed.

(** The driver joins the paths of a scenario with commas and the analyst
    splits its argument at commas: the analyst gets the same paths back
    whenever no path contains a comma, is blank, or starts or ends with
    white space. *)
Theorem joined_paths_parse_back :
  forall pdf_files,
    Forall (fun p => PyStr.existsb_str (Ascii.eqb ",") p = false
                     /\ PyStr.strip p = p /\ p <> "") pdf_files ->
    PersonaMain.pdf_files_of (PyStr.join "," pdf_files) = pdf_files.
Proof.
  intros pdf_files H. unfold PersonaMain.pdf_files_of.
  destruct pdf_files as [|x l]; [reflexivity|].
  rewrite split_on_join.
  - apply clean_paths_kept.
    eapply Forall_impl; [exact H|]. intros p Hp. apply Hp.
  - discriminate.
  - eapply Forall_impl; [exact H|]. intros p Hp. apply Hp.
Qed.

Lemma joined_paths_parse_back_witness :
  PersonaMain.pdf_files_of
    (PyStr.join "," (RunLocal.pdf_files Inputs.cooking_scenario))
  = RunLocal.pdf_files Inputs.cooking_scenario.
Proof.
  apply joined_paths_parse_back.
  repeat constructor; vm_compute; congruence.
Defined.

(** ** The driver *)

Lemma run_scenario_cases sys_executable s output_base_dir :
  let r := RunLocal.run_scenario RunLocal.module_globals sys_executable s
             output_base_dir in
  RunLocal.launched r = []
  /\ (RunLocal.skipped s = true -> r = RunLocal.nothing)
  /\ (RunLocal.skipped s = false ->
      RunLocal.raised r = Some (RunLocal.NameError "sys")
      /\ RunLocal.makedirs r
         = [RunLocal.path_join output_base_dir
              (Persona.basename (RunLocal.scenario_path s))]).
Proof.
  unfold RunLocal.run_scenario, RunLocal.skipped.
  destruct (RunLocal.pdf_files s); simpl.
  - repeat split; try reflexivity; discriminate.
  - destruct (_ && _)%bool; simpl; repeat split; try reflexivity;
      discriminate.
Qed.

Lemma run_all_launches_nothing sys_executable base scenarios :
  forall done,
    RunLocal.launched done = [] ->
    RunLocal.launched
      (RunLocal.run_all RunLocal.module_globals sys_executable scenarios base
                        done) = [].
Proof.
  induction scenarios as [|s rest IH]; intros done H; [exact H|].
  simpl.
  destruct (run_scenario_cases sys_executable s base) as (Hl & _).
  destruct (RunLocal.raised _).
  - simpl. now rewrite H, Hl.
  - apply IH. simpl. now rewrite H, Hl.
Qed.

Lemma run_all_outcome sys_executable base scenarios :
  forall done,
    RunLocal.raised done = None ->
    RunLocal.raised
      (RunLocal.run_all RunLocal.module_globals sys_executable scenarios base
                        done)
    = if forallb RunLocal.skipped scenarios then None
      else Some (RunLocal.NameError "sys").
Proof.
  induction scenarios as [|s rest IH]; intros done H; [exact H|].
  simpl.
  destruct (run_scenario_cases sys_executable s base) as (_ & Hskip & Hrun).
  destruct (RunLocal.skipped s).
  - rewrite (Hskip eq_refl). simpl. now apply IH.
  - destruct (Hrun eq_refl) as [-> _]. reflexivity.
Qed.

(** As the module stands, [run_local.py] never starts the analyst.  A
    scenario without PDF files, or with neither persona nor job, is
    skipped; any other scenario gets its output directory and then ends in
    a [NameError], because [sys] is not imported.  The whole run ends
    without an exception only if there is at least one scenario and all of
    them are skipped. *)
Theorem driver_never_launches :
  forall sys_executable,
    (forall s output_base_dir,
        let r := RunLocal.run_scenario RunLocal.module_globals sys_executable
                   s output_base_dir in
        RunLocal.launched r = []
        /\ (RunLocal.skipped s = true -> r = RunLocal.nothing)
        /\ (RunLocal.skipped s = false ->
            RunLocal.raised r = Some (RunLocal.NameError "sys")
            /\ RunLocal.makedirs r
               = [RunLocal.path_join output_base_dir
                    (Persona.basename (RunLocal.scenario_path s))]))
    /\ (forall current_dir scenarios,
           let r := RunLocal.main RunLocal.module_globals sys_executable
                      current_dir scenarios in
           RunLocal.launched r = []
           /\ (RunLocal.raised r = None
               <-> scenarios <> []
                   /\ forallb RunLocal.skipped scenarios = true)).
Proof.
  intros sys_executable. split; [apply run_scenario_cases|].
  intros current_dir scenarios r. unfold r, RunLocal.main.
  destruct scenarios as [|s rest].
  - simpl. split; [reflexivity|].
    split; [discriminate | intros [H _]; now destruct H].
  - split; [now apply run_all_launches_nothing|].
    rewrite run_all_outcome by reflexivity.
    destruct (forallb RunLocal.skipped (s :: rest)).
    + split; [intros _; split; [discriminate | reflexivity] | reflexivity].
    + split; [discriminate | intros [_ H]; discriminate].
Qed.

Lemma driver_never_launches_witness :
  RunLocal.raised
    (RunLocal.run_scenario RunLocal.module_globals "/usr/bin/python3"
       Inputs.cooking_scenario "output_results")
  = Some (RunLocal.NameError "sys")
  /\ RunLocal.run_scenario RunLocal.module_globals "/usr/bin/python3"
       Inputs.empty_scenario "output_results"
     = RunLocal.nothing.
Proof.
  pose proof (proj1 (driver_never_launches "/usr/bin/python3")) as H.
  split.
  - apply (H Inputs.cooking_scenario "output_results"). reflexivity.
  - apply (H Inputs.empty_scenario "output_results"). reflexivity.
Defined.

Lemma refinement_covers_top_five_witness :
  exists s,
    In s (firstn 5 [Scenario.cooking_section])
    /\ Persona.full_text_content s <> ""
    /\ Persona.relevant_sentences ["learning"; "pipeline"]
         (Persona.sents (Inputs.learning_nlp (Persona.full_text_content s)))
         [] <> []
    /\ {| Persona.r_document := "report.pdf"; Persona.r_page_number := 1;
          Persona.refined_text := "We use learning pipelines." |}
       = {| Persona.r_document := Persona.document s;
            Persona.r_page_number := Persona.page_number s;
            Persona.refined_text :=
              PyStr.join " "
                (Persona.relevant_sentences ["learning"; "pipeline"]
                   (Persona.sents
                      (Inputs.learning_nlp (Persona.full_text_content s)))
                   []) |}.
Proof.
  apply (refinement_covers_top_five Inputs.learning_nlp
           ["learning"; "pipeline"] [Scenario.cooking_section]).
  vm_compute. now left.
Defined.

Lemma clean_text_normal_form_witness :
  PyStr.is_space "I" = false.
Proof.
  apply (proj1 (proj2 (proj2 (clean_text_normal_form "  Introduction  ")))).
  vm_compute. reflexivity.
Defined.

(** ** The numbering patterns exclude one another *)

Lemma matches_prefix_lang s :
  forall r,
    Re.matches_prefix r s = true <-> exists p q, s = p ++ q /\ lang r p.
Proof.
  induction s as [|c s IH]; intros r; simpl.
  - rewrite orb_false_r. split.
    + intros H. exists "", "". split; [reflexivity | now apply nullable_lang].
    + intros (p & q & E & H). destruct p; [|discriminate].
      now apply (lang_nullable r "").
  - rewrite orb_true_iff, IH. split.
    + intros [H|(p & q & -> & H)].
      * exists "", (String c s). split; [reflexivity | now apply nullable_lang].
      * exists (String c p), q. split; [reflexivity | now apply deriv_lang].
    + intros (p & q & E & H). destruct p as [|d p].
      * left. now apply (lang_nullable r "").
      * rewrite append_cons in E. injection E as <- ->.
        right. exists p, q. split; [reflexivity|].
        now apply (lang_deriv r (String c p)).
Qed.

Lemma lang_cat_inv r1 r2 s :
  lang (Re.Cat r1 r2) s ->
  exists s1 s2, s = s1 ++ s2 /\ lang r1 s1 /\ lang r2 s2.
Proof. intros H. inversion H; subst. eauto. Qed.

Lemma lang_cls_inv p s :
  lang (Re.Cls p) s -> exists c, s = String c "" /\ p c = true.
Proof. intros H. inversion H; subst. eauto. Qed.

Lemma lang_star_cls p s r :
  lang r s -> r = Re.Star (Re.Cls p) -> PyStr.forallb_str p s = true.
Proof.
  induction 1; intros E; try discriminate; [reflexivity|].
  injection E as ->. apply lang_cls_inv in H as (c & -> & Hc).
  rewrite append_cons, append_nil_l. simpl. now rewrite Hc, IHlang2.
Qed.

Lemma lang_plus_cls p s :
  lang (Re.plus (Re.Cls p)) s ->
  exists c t, s = String c t /\ p c = true /\ PyStr.forallb_str p t = true.
Proof.
  intros H. apply lang_cat_inv in H as (s1 & s2 & -> & H1 & H2).
  apply lang_cls_inv in H1 as (c & -> & Hc).
  exists c, s2. rewrite append_cons, append_nil_l.
  repeat split; [exact Hc|]. now apply (lang_star_cls p s2 _ H2).
Qed.

Lemma digit_not_dot_nor_space c :
  PyStr.is_digit c = true ->
  Ascii.eqb c "." = false /\ PyStr.is_space c = false.
Proof.
  destruct c as [[] [] [] [] [] [] [] []]; vm_compute; intros H;
    try discriminate; split; reflexivity.
Qed.

Lemma space_not_digit_nor_dot c :
  PyStr.is_space c = true ->
  PyStr.is_digit c = false /\ Ascii.eqb c "." = false.
Proof.
  destruct c as [[] [] [] [] [] [] [] []]; vm_compute; intros H;
    try discriminate; split; reflexivity.
Qed.

Lemma tokens_cons in_number c s :
  tokens in_number (String c s)
  = if PyStr.is_digit c
    then if in_number then tokens true s else Number :: tokens true s
    else if Ascii.eqb c "." then Dot :: tokens false s
    else if PyStr.is_space c then Space :: tokens false s
    else [Other].
Proof. reflexivity. Qed.

Lemma tokens_inside_number t rest :
  PyStr.forallb_str PyStr.is_digit t = true -> number_ends rest ->
  tokens true (t ++ rest) = tokens false rest.
Proof.
  intros Ht Hrest. induction t as [|c t IH].
  - rewrite append_nil_l. destruct rest as [|x rest]; [reflexivity|].
    rewrite !tokens_cons. now rewrite (Hrest x eq_refl).
  - simpl in Ht. apply andb_true_iff in Ht as [Hc Ht].
    rewrite append_cons, tokens_cons, Hc. now apply IH.
Qed.

Lemma tokens_number c t rest :
  PyStr.is_digit c = true ->
  PyStr.forallb_str PyStr.is_digit t = true -> number_ends rest ->
  tokens false (String c t ++ rest) = Number :: tokens false rest.
Proof.
  intros Hc Ht Hrest.
  rewrite append_cons, tokens_cons, Hc. f_equal.
  now apply tokens_inside_number.
Qed.

Lemma tokens_dot rest : tokens false ("." ++ rest) = Dot :: tokens false rest.
Proof. reflexivity. Qed.

Lemma tokens_space c rest :
  PyStr.is_space c = true ->
  tokens false (String c rest) = Space :: tokens false rest.
Proof.
  intros H. rewrite tokens_cons.
  destruct (space_not_digit_nor_dot c H) as [-> ->]. now rewrite H.
Qed.

Lemma dot_ends_number rest : number_ends ("." ++ rest).
Proof. intros c H. injection H as <-. reflexivity. Qed.

Lemma space_ends_number c rest :
  PyStr.is_space c = true -> number_ends (String c rest).
Proof.
  intros Hc x H. injection H as <-. now apply space_not_digit_nor_dot.
Qed.

(** A number and a dot at the front of what a pattern matches. *)
Lemma number_dot_front r p :
  lang (Re.Cat (Re.plus Re.digit) (Re.Cat Re.dot r)) p ->
  exists c t p',
    p = String c t ++ "." ++ p'
    /\ PyStr.is_digit c = true
    /\ PyStr.forallb_str PyStr.is_digit t = true
    /\ lang r p'.
Proof.
  intros H. apply lang_cat_inv in H as (d & rest & -> & Hd & H).
  apply lang_plus_cls in Hd as (c & t & -> & Hc & Ht).
  apply lang_cat_inv in H as (x & p' & -> & Hx & H).
  apply lang_chr in Hx. subst x.
  exists c, t, p'. now repeat split.
Qed.

(** A number and white space at the front of what a pattern matches. *)
Lemma number_space_front r p :
  lang (Re.Cat (Re.plus Re.digit) (Re.Cat (Re.plus Re.space) r)) p ->
  exists c t w p',
    p = String c t ++ String w p'
    /\ PyStr.is_digit c = true
    /\ PyStr.forallb_str PyStr.is_digit t = true
    /\ PyStr.is_space w = true.
Proof.
  intros H. apply lang_cat_inv in H as (d & rest & -> & Hd & H).
  apply lang_plus_cls in Hd as (c & t & -> & Hc & Ht).
  apply lang_cat_inv in H as (x & p' & -> & Hx & H).
  apply lang_plus_cls in Hx as (w & tw & -> & Hw & _).
  exists c, t, w, (tw ++ p'). rewrite append_cons. now repeat split.
Qed.

Lemma h2_tokens s :
  Re.match_ Ext2.h2_pattern s = true ->
  exists rest, tokens false s = Number :: Dot :: Number :: Space :: rest.
Proof.
  intros H. apply matches_prefix_lang in H as (p & q & -> & H).
  apply number_dot_front in H as (c1 & t1 & p1 & -> & Hc1 & Ht1 & H).
  apply number_space_front in H as (c2 & t2 & w & p2 & -> & Hc2 & Ht2 & Hw).
  rewrite !append_assoc.
  rewrite tokens_number by (try assumption; apply dot_ends_number).
  rewrite tokens_dot.
  rewrite tokens_number
    by (try assumption; rewrite append_cons; now apply space_ends_number).
  rewrite append_cons, tokens_space by exact Hw. eauto.
Qed.

Lemma h3_tokens s :
  Re.match_ Ext2.h3_pattern s = true ->
  exists rest,
    tokens false s
    = Number :: Dot :: Number :: Dot :: Number :: Space :: rest.
Proof.
  intros H. apply matches_prefix_lang in H as (p & q & -> & H).
  apply number_dot_front in H as (c1 & t1 & p1 & -> & Hc1 & Ht1 & H).
  apply number_dot_front in H as (c2 & t2 & p2 & -> & Hc2 & Ht2 & H).
  apply number_space_front in H as (c3 & t3 & w & p3 & -> & Hc3 & Ht3 & Hw).
  rewrite !append_assoc.
  rewrite tokens_number by (try assumption; apply dot_ends_number).
  rewrite tokens_dot.
  rewrite tokens_number by (try assumption; apply dot_ends_number).
  rewrite tokens_dot.
  rewrite tokens_number
    by (try assumption; rewrite append_cons; now apply space_ends_number).
  rewrite append_cons, tokens_space by exact Hw. eauto.
Qed.

Lemma h4_tokens s :
  Re.match_ Ext2.h4_pattern s = true ->
  exists rest,
    tokens false s
    = Number :: Dot :: Number :: Dot :: Number :: Dot :: Number :: Space
        :: rest.
Proof.
  intros H. apply matches_prefix_lang in H as (p & q & -> & H).
  apply number_dot_front in H as (c1 & t1 & p1 & -> & Hc1 & Ht1 & H).
  apply number_dot_front in H as (c2 & t2 & p2 & -> & Hc2 & Ht2 & H).
  apply number_dot_front in H as (c3 & t3 & p3 & -> & Hc3 & Ht3 & H).
  apply number_space_front in H as (c4 & t4 & w & p4 & -> & Hc4 & Ht4 & Hw).
  rewrite !append_assoc.
  rewrite tokens_number by (try assumption; apply dot_ends_number).
  rewrite tokens_dot.
  rewrite tokens_number by (try assumption; apply dot_ends_number).
  rewrite tokens_dot.
  rewrite tokens_number by (try assumption; apply dot_ends_number).
  rewrite tokens_dot.
  rewrite tokens_number
    by (try assumption; rewrite append_cons; now apply space_ends_number).
  rewrite append_cons, tokens_space by exact Hw. eauto.
Qed.

Lemma h1_tokens s :
  Re.match_ Ext2.h1_pattern s = true ->
  tokens false s = [Other]
  \/ exists rest, tokens false s = Number :: Dot :: Space :: rest.
Proof.
  intros H. apply matches_prefix_lang in H as (p & q & -> & H).
  apply lang_cat_inv in H as (front & rest & -> & Hfront & H).
  inversion Hfront as [| | |? ? ? Happ|? ? ? Hnum| |]; subst.
  - left.
    apply lang_cat_inv in Happ as (a & b & -> & Ha & _).
    apply lang_cat_inv in Ha as (x & y & -> & Hx & _).
    apply lang_chr in Hx. subst x. reflexivity.
  - right.
    apply lang_plus_cls in Hnum as (c & t & -> & Hc & Ht).
    apply lang_cat_inv in H as (x & p' & -> & Hx & H).
    apply lang_chr in Hx. subst x.
    apply lang_cat_inv in H as (ws & p'' & -> & Hws & _).
    apply lang_plus_cls in Hws as (w & tw & -> & Hw & _).
    rewrite !append_assoc.
    rewrite tokens_number by (try assumption; apply dot_ends_number).
    rewrite tokens_dot.
    rewrite append_cons, tokens_space by exact Hw. eauto.
Qed.

Lemma numbered_item_is_h1 s :
  Re.match_ Ext2.numbered_item s = true ->
  Re.match_ Ext2.h1_pattern s = true.
Proof.
  intros H. apply matches_prefix_lang in H as (p & q & -> & H).
  apply matches_prefix_lang. exists p, q. split; [reflexivity|].
  apply lang_cat_inv in H as (d & rest & -> & Hd & H).
  apply lang_cat_inv in H as (x & w & -> & Hx & Hw).
  unfold Ext2.h1_pattern. simpl Re.seq.
  constructor; [now apply lang_alt_r|].
  constructor; [exact Hx|].
  rewrite <- (append_nil_r w). constructor; [|constructor].
  rewrite <- (append_nil_r w). constructor; [exact Hw | constructor].
Qed.

(** No line matches two of the four numbering patterns, so the order in
    which the extractor tries them does not matter: the numbering gives
    level Hk exactly when the pattern of Hk matches.  A line that starts
    like a numbered item ("N. ") is numbered as H1. *)
Theorem numbering_patterns_exclusive :
  forall line_text,
    (Ext2.numbered_level line_text = Some "H4"
     <-> Re.match_ Ext2.h4_pattern line_text = true)
    /\ (Ext2.numbered_level line_text = Some "H3"
        <-> Re.match_ Ext2.h3_pattern line_text = true)
    /\ (Ext2.numbered_level line_text = Some "H2"
        <-> Re.match_ Ext2.h2_pattern line_text = true)
    /\ (Ext2.numbered_level line_text = Some "H1"
        <-> Re.match_ Ext2.h1_pattern line_text = true)
    /\ (Re.match_ Ext2.numbered_item line_text = true ->
        Ext2.numbered_level line_text = Some "H1").
Proof.
  intros s.
  pose proof (h4_tokens s) as T4. pose proof (h3_tokens s) as T3.
  pose proof (h2_tokens s) as T2. pose proof (h1_tokens s) as T1.
  pose proof (numbered_item_is_h1 s) as TN.
  unfold Ext2.numbered_level.
  destruct (Re.match_ Ext2.h4_pattern s) eqn:E4,
           (Re.match_ Ext2.h3_pattern s) eqn:E3,
           (Re.match_ Ext2.h2_pattern s) eqn:E2,
           (Re.match_ Ext2.h1_pattern s) eqn:E1;
    try (destruct (T4 eq_refl) as [r4 F4]);
    try (destruct (T3 eq_refl) as [r3 F3]);
    try (destruct (T2 eq_refl) as [r2 F2]);
    try (destruct (T1 eq_refl) as [F1|[r1 F1]]);
    try congruence;
    repeat split; try congruence; try discriminate;
    intros H; specialize (TN H); discriminate.
Qed.

Lemma numbering_patterns_exclusive_witness :
  Ext2.numbered_level "1. Introduction" = Some "H1".
Proof.
  apply (numbering_patterns_exclusive "1. Introduction").
  vm_compute. reflexivity.
Defined.
